(** * Fee-sponsored PSBT exchange: a shallow embedding of [src/main.ts]

    The script drives two external collaborators, a Bitcoin Core wallet
    (through [NODE_CLIENT]) and the Frictionless sponsor (through a [Faas]
    object).  Every call to a collaborator, every console line and every
    [deepStrictEqual] is an [action] of a program tree; a tree is run
    against an arbitrary, possibly stateful and possibly hostile, pair of
    collaborators and yields the trace of what happened. *)

From Stdlib Require Import QArith Qcanon.
From stdpp Require Import base numbers strings list gmap.

Local Open Scope string_scope.
Local Open Scope Z_scope.
Local Open Scope list_scope.

(** ** Data model *)

(** An element of the array answered by [listunspent]; only the three
    fields read by [getPSBT].  A JavaScript number that is merely passed
    along is an exact rational here. *)
Module Utxo.
Record t := mk { txid : string; vout : Z; amount : Qc }.
End Utxo.

(** [TransactionInput] of rpc-bitcoin, as the literal in [getPSBT] builds it. *)
Module TxIn.
Record t := mk { txid : string; vout : Z }.
End TxIn.

(** [TransactionOutput]: an object used as a map from address to amount. *)
Abbreviation TransactionOutput := (gmap string Qc).

(** [SigHashType] of rpc-bitcoin. *)
Inductive SigHashType :=
| ALL
| NONE
| SINGLE
| ALL_ANYONECANPAY
| NONE_ANYONECANPAY
| SINGLE_ANYONECANPAY.

(** The object answered by [walletprocesspsbt]. *)
Module Processed.
Record t := mk { psbt : string; complete : bool }.
End Processed.

(** Modelled from the spec: the type of the [state] attribute of an
    exchange record is declared in the sponsor's library, which is not part
    of the sources; these are the states the specification's state machines
    name (interactive and non-interactive). *)
Inductive ExchangeState :=
| Created
| FeeAdded
| CustomerSigned
| PreSigned
| Broadcast
| Failed.

(** Modelled from the spec: the record types [PSBT] and [PSBTNI] are
    declared in the sponsor's library; records carry
    [{asset, id, state, blob, txid}], the blob being the field [psbt] that
    the script reads, and [txid] being present only once broadcast. *)
Module Exchange.
Record t := mk {
  asset : string;
  id : string;
  state : ExchangeState;
  psbt : string;
  txid : option string
}.
End Exchange.

Abbreviation PSBT := Exchange.t.
Abbreviation PSBTNI := Exchange.t.

(** The handle of a constructed [Faas] client. *)
Inductive Faas := FaasObject (ref : nat).

(** The values the script hands to [console.log] and [deepStrictEqual]. *)
Inductive JsValue :=
| JsUndefined
| JsString (s : string)
| JsNumber (q : Qc)
| JsState (s : ExchangeState)
| JsRecord (r : Exchange.t).

(** A thrown JavaScript error: its class name and its message. *)
Inductive JsError := mkError (name message : string).

Definition message (e : JsError) : string :=
  match e with mkError _ m => m end.

(** What a call gives back: a value, or a thrown error (a rejected promise). *)
Inductive result (X : Type) :=
| Ok (x : X)
| Rejected (e : JsError).

Arguments Ok {X} x.
Arguments Rejected {X} e.

Global Instance SigHashType_eq_dec : EqDecision SigHashType.
Proof. solve_decision. Defined.

Global Instance ExchangeState_eq_dec : EqDecision ExchangeState.
Proof. solve_decision. Defined.

Global Instance Exchange_eq_dec : EqDecision Exchange.t.
Proof. solve_decision. Defined.

Global Instance JsValue_eq_dec : EqDecision JsValue.
Proof. solve_decision. Defined.

Global Instance JsError_eq_dec : EqDecision JsError.
Proof. solve_decision. Defined.

(** ** Actions *)

(** The methods of [NODE_CLIENT] the script calls, with their arguments. *)
Inductive wallet_call :=
| listunspent (minconf : Z) (addresses : list string) (wallet : string)
| createpsbt (inputs : list TxIn.t) (outputs : list TransactionOutput)
             (locktime : Z) (replaceable : bool)
| walletprocesspsbt (psbt : string) (sign : bool) (sighashtype : SigHashType)
                    (bip32derivs : bool) (wallet : string).

(** The constructor and the methods of [Faas] the script calls. *)
Inductive faas_call :=
| new_Faas (url key : string)
| faas_url (faas : Faas)
| faas_key (faas : Faas)
| readApiKey (faas : Faas)
| readCredit (faas : Faas)
| readFee (faas : Faas) (asset : string)
| readRate (faas : Faas) (pair : string)
| createPSBT (faas : Faas) (asset psbt : string)
| readPSBT (faas : Faas) (asset id : string)
| updatePSBT (faas : Faas) (asset id psbt : string)
| readPSBTs (faas : Faas)
| createPSBTNI (faas : Faas) (asset psbt : string)
| readPSBTNI (faas : Faas) (asset id : string)
| readPSBTNIs (faas : Faas).

Inductive action :=
| Wallet (c : wallet_call)
| Sponsor (c : faas_call)
| ConsoleLog (args : list JsValue)
| ConsoleError (args : list JsValue)
| DeepStrictEqual (actual expected : JsValue).

Definition wallet_reply (c : wallet_call) : Type :=
  match c with
  | listunspent _ _ _ => list Utxo.t
  | createpsbt _ _ _ _ => string
  | walletprocesspsbt _ _ _ _ _ => Processed.t
  end.

Definition faas_reply (c : faas_call) : Type :=
  match c with
  | new_Faas _ _ => Faas
  | faas_url _ | faas_key _ | readApiKey _ => string
  | readCredit _ | readFee _ _ | readRate _ _ => Qc
  | createPSBT _ _ _ | readPSBT _ _ _ | updatePSBT _ _ _ _ => PSBT
  | readPSBTs _ => list PSBT
  | createPSBTNI _ _ _ | readPSBTNI _ _ _ => PSBTNI
  | readPSBTNIs _ => list PSBTNI
  end.

Definition reply (a : action) : Type :=
  match a with
  | Wallet c => wallet_reply c
  | Sponsor c => faas_reply c
  | ConsoleLog _ | ConsoleError _ | DeepStrictEqual _ _ => unit
  end.

(** ** Programs *)

(** A program either returns, throws, or performs an action and goes on
    with what the action gave back. *)
Inductive prog (A : Type) : Type :=
| Ret (a : A)
| Throw (e : JsError)
| Act (a : action) (k : result (reply a) → prog A).

Arguments Ret {A} a.
Arguments Throw {A} e.
Arguments Act {A} a k.

Fixpoint bind {A B : Type} (p : prog A) (f : A → prog B) : prog B :=
  match p with
  | Ret a => f a
  | Throw e => Throw e
  | Act a k => Act a (λ r, bind (k r) f)
  end.

(** [p.catch(h)], and [try { p } catch (e) { h e }]. *)
Fixpoint try_catch {A : Type} (p : prog A) (h : JsError → prog A) : prog A :=
  match p with
  | Ret a => Ret a
  | Throw e => h e
  | Act a k => Act a (λ r, try_catch (k r) h)
  end.

Global Instance prog_ret : MRet prog := @Ret.
Global Instance prog_bind : MBind prog := λ A B f p, bind p f.

(** [await] of a call: its value, or its error thrown here. *)
Definition call (a : action) : prog (reply a) :=
  Act a (λ r, match r with Ok x => Ret x | Rejected e => Throw e end).

Definition console_log (args : list JsValue) : prog unit := call (ConsoleLog args).
Definition console_error (args : list JsValue) : prog unit := call (ConsoleError args).

(** The script names no kinds of error; it meets three errors of its own
    making: the assertion error of [deepStrictEqual] (a record came back
    changed), the type error of reading the first coin of an empty list (no
    coin to spend), and the error [run] throws on an unknown choice.  Any
    other error is one a collaborator rejected a call with. *)

(** [deepStrictEqual] of node:assert on the values of [JsValue]: records are
    compared field by field.  The message of the real AssertionError goes on
    with a rendering of the two values, which is left out. *)
Definition AssertionError : JsError :=
  mkError "AssertionError" "Expected values to be strictly deep-equal:".

Definition deepStrictEqual_result (actual expected : JsValue) : result unit :=
  if decide (actual = expected) then Ok tt else Rejected AssertionError.

Definition deepStrictEqual (actual expected : JsValue) : prog unit :=
  call (DeepStrictEqual actual expected).

(** Reading a property of [o], which may be [undefined]. *)
Definition TypeError (property : string) : JsError :=
  mkError "TypeError"
          ("Cannot read properties of undefined (reading '" +:+ property +:+ "')").

Definition get_property {A B : Type} (o : option A) (field : A → B)
    (property : string) : prog B :=
  match o with
  | Some x => Ret (field x)
  | None => Throw (TypeError property)
  end.

(** ** Running a program against the collaborators *)

Inductive entry := Entry (a : action) (r : result (reply a)).

Abbreviation trace := (list entry).

Inductive outcome (A : Type) :=
| Returned (a : A)
| Thrown (e : JsError).

Arguments Returned {A} a.
Arguments Thrown {A} e.

(** The two collaborators over a world [W] of their own: each call is
    answered from the current world and may change it. *)
Record Collaborators (W : Type) := {
  wallet : ∀ c : wallet_call, W → result (wallet_reply c) * W;
  sponsor : ∀ c : faas_call, W → result (faas_reply c) * W
}.

Arguments wallet {W} _ c _.
Arguments sponsor {W} _ c _.

Section Interp.
Context {W : Type} (env : Collaborators W).

Definition respond (a : action) : W → result (reply a) * W :=
  match a with
  | Wallet c => wallet env c
  | Sponsor c => sponsor env c
  | ConsoleLog _ => λ w, (Ok tt, w)
  | ConsoleError _ => λ w, (Ok tt, w)
  | DeepStrictEqual actual expected => λ w, (deepStrictEqual_result actual expected, w)
  end.

Fixpoint interp {A : Type} (p : prog A) (w : W) : trace * W * outcome A :=
  match p with
  | Ret a => ([], w, Returned a)
  | Throw e => ([], w, Thrown e)
  | Act a k =>
      let '(r, w1) := respond a w in
      let '(t, w2, o) := interp (k r) w1 in
      (Entry a r :: t, w2, o)
  end.

Definition trace_of {A : Type} (p : prog A) (w : W) : trace := (interp p w).1.1.
Definition outcome_of {A : Type} (p : prog A) (w : W) : outcome A := (interp p w).2.
End Interp.

(** ** The script *)

(** Settings of the Bitcoin Core node, as the file has them. *)
Definition NODE_URL : string := "http://127.0.0.1".
Definition NODE_PORT : Z := 18332.
Definition NODE_TIMEOUT : Z := 10000.
Definition NODE_USER : string := "???".
Definition NODE_PASS : string := "???".

(** The options [NODE_CLIENT] is constructed with; they say where the
    wallet is, not what it is asked, and the wallet calls do not show them. *)
Record RPCClient := {
  url : string;
  port : Z;
  timeout : Z;
  user : string;
  pass : string
}.

Definition NODE_CLIENT : RPCClient :=
  {| url := NODE_URL; port := NODE_PORT; timeout := NODE_TIMEOUT;
     user := NODE_USER; pass := NODE_PASS |}.

Definition OUTPUT_ADDRESS : string := "???".
Definition WALLET_LABEL : string := "???".

Definition FAAS_URL : string := "https://graphql.frictionless.money/".
Definition FAAS_KEY : string := "???".

(** [ASSET_BTC] and [PAIR_BTC_USD] are imported from the sponsor's library;
    their values are not in the sources and stay parameters. *)
Class FaasConstants := {
  ASSET_BTC : string;
  PAIR_BTC_USD : string
}.

Module UserChoice.
Definition Basic : string := "basic".
Definition PSBT : string := "psbt".
Definition PSBTNI : string := "psbtni".
(** [Object.values(UserChoice)] *)
Definition values : list string := [Basic; PSBT; PSBTNI].
End UserChoice.

(** [Array.prototype.includes] on an array of strings, for a value that is a
    string or [undefined]. *)
Definition includes (l : list string) (x : option string) : bool :=
  match x with
  | Some s => bool_decide (s ∈ l)
  | None => false
  end.

(** [x === s] for a value that is a string or [undefined]. *)
Definition strict_equal (x : option string) (s : string) : bool :=
  bool_decide (x = Some s).

Definition optional_string (o : option string) : JsValue :=
  match o with
  | Some s => JsString s
  | None => JsUndefined
  end.

Section Script.
Context `{FaasConstants}.

Definition getPSBT (sign : bool) (sighashtype : SigHashType) : prog string :=
  unspentUTXOs ← call (Wallet (listunspent 0 [OUTPUT_ADDRESS] WALLET_LABEL));
  txid ← get_property (unspentUTXOs !! 0%nat) Utxo.txid "txid";
  vout ← get_property (unspentUTXOs !! 0%nat) Utxo.vout "vout";
  amount ← get_property (unspentUTXOs !! 0%nat) Utxo.amount "amount";
  let inputs := [TxIn.mk txid vout] in
  let outputs : list TransactionOutput := [{[ OUTPUT_ADDRESS := amount ]}] in
  customerPSBT ← call (Wallet (createpsbt inputs outputs 0 true));
  processedCustomerPSBT ←
    call (Wallet (walletprocesspsbt customerPSBT sign sighashtype true WALLET_LABEL));
  mret (Processed.psbt processedCustomerPSBT).

Definition processPSBT (psbt : string) (sign : bool) (sighashtype : SigHashType)
    : prog string :=
  processedPSBT ←
    call (Wallet (walletprocesspsbt psbt sign sighashtype true WALLET_LABEL));
  mret (Processed.psbt processedPSBT).

(** The callback handed to [then] in [psbt]. *)
Definition psbt_then (faas : Faas) (originalPSBT : string) : prog unit :=
  console_log [JsString "   "; JsString "Submitting Candidate TX"];;
  feeIncludedPSBT ← call (Sponsor (createPSBT faas ASSET_BTC originalPSBT));
  console_log [JsString "   "; JsString "Retrieving Candidate TX"];;
  readPSBT1 ← call (Sponsor (readPSBT faas (Exchange.asset feeIncludedPSBT)
                                           (Exchange.id feeIncludedPSBT)));
  console_log [JsString "   "; JsString "Testing TX Equality"];;
  deepStrictEqual (JsRecord readPSBT1) (JsRecord feeIncludedPSBT);;
  console_log [JsString "   "; JsString "Signing TX with Added Fees"];;
  signedPSBT ← processPSBT (Exchange.psbt feeIncludedPSBT) true ALL;
  console_log [JsString "   "; JsString "Submitting Customer-Signed TX"];;
  broadcastPSBT ← call (Sponsor (updatePSBT faas ASSET_BTC
                                            (Exchange.id feeIncludedPSBT) signedPSBT));
  console_log [JsString "   "; JsString "Retrieving Final TX"];;
  readPSBT2 ← call (Sponsor (readPSBT faas (Exchange.asset broadcastPSBT)
                                           (Exchange.id broadcastPSBT)));
  console_log [JsString "   "; JsString "Testing TX Equality"];;
  deepStrictEqual (JsRecord readPSBT2) (JsRecord broadcastPSBT).

(** [getPSBT(false)] takes the default [sighashtype], ["ALL"]. *)
Definition psbt (faas : Faas) : prog unit :=
  console_log [JsString "Starting FaaS in Interactive Mode (PSBT)"];;
  try_catch (getPSBT false ALL ≫= psbt_then faas)
            (λ e, console_error [JsString "PSBT failed:"; JsString (message e)]).

(** The callback handed to [then] in [psbtni]. *)
Definition psbtni_then (faas : Faas) (signedPSBTNI : string) : prog unit :=
  console_log [JsString "   "; JsString "Submitting Pre-Signed TX (ALL|ANYONECANPAY)"];;
  broadcastPSBTNI ← call (Sponsor (createPSBTNI faas ASSET_BTC signedPSBTNI));
  console_log [JsString "   "; JsString "Retrieving TX"];;
  readPSBTNI1 ← call (Sponsor (readPSBTNI faas (Exchange.asset broadcastPSBTNI)
                                               (Exchange.id broadcastPSBTNI)));
  console_log [JsString "   "; JsString "Testing TX Equality"];;
  deepStrictEqual (JsRecord readPSBTNI1) (JsRecord broadcastPSBTNI).

Definition psbtni (faas : Faas) : prog unit :=
  console_log [JsString "Starting FaaS in Non-Interactive Mode (PSBTNI)"];;
  try_catch (getPSBT true ALL_ANYONECANPAY ≫= psbtni_then faas)
            (λ e, console_error [JsString "PSBTNI failed:"; JsString (message e)]).

(** The body of the two [forEach] loops of [run], from index [i] on. *)
Fixpoint forEach_print (i : nat) (records : list Exchange.t) : prog unit :=
  match records with
  | [] => mret tt
  | r :: rest =>
      console_log [JsNumber (Q2Qc (inject_Z (Z.of_nat i))); JsString " ";
                   JsString (Exchange.asset r); JsString ":";
                   JsString (Exchange.id r); JsString ":";
                   JsState (Exchange.state r)];;
      console_log [JsString "   "; optional_string (Exchange.txid r)];;
      forEach_print (S i) rest
  end.

Definition run (choice : option string) : prog unit :=
  if negb (includes UserChoice.values choice)
  then Throw (mkError "Error" "Invalid user choice.")
  else
    faas ← call (Sponsor (new_Faas FAAS_URL FAAS_KEY));
    url ← call (Sponsor (faas_url faas));
    deepStrictEqual (JsString url) (JsString FAAS_URL);;
    key ← call (Sponsor (faas_key faas));
    deepStrictEqual (JsString key) (JsString FAAS_KEY);;
    apiKey ← call (Sponsor (readApiKey faas));
    deepStrictEqual (JsString apiKey) (JsString FAAS_KEY);;
    myCredit ← call (Sponsor (readCredit faas));
    console_log [JsString "Available Credit          :"; JsNumber myCredit];;
    currentBitcoinFee ← call (Sponsor (readFee faas ASSET_BTC));
    console_log [JsString "Current BTC Fee (s/vB)    :"; JsNumber currentBitcoinFee];;
    currentBitcoinRate ← call (Sponsor (readRate faas PAIR_BTC_USD));
    console_log [JsString "Current BTC Rate (USD/BTC):"; JsNumber currentBitcoinRate];;
    (if strict_equal choice "psbt" then psbt faas else mret tt);;
    readPSBTs1 ← call (Sponsor (readPSBTs faas));
    console_log [JsString "PSBTs"];;
    forEach_print 0 readPSBTs1;;
    (if strict_equal choice "psbtni" then psbtni faas else mret tt);;
    readPSBTNIs1 ← call (Sponsor (readPSBTNIs faas));
    console_log [JsString "PSBTNIs"];;
    forEach_print 0 readPSBTNIs1.

(** The last statement of the file, for the arguments [argv] of the
    process: [process.argv.slice()[2]] is [undefined] when there are
    fewer than three. *)
Definition main (argv : list string) : prog unit :=
  try_catch (run (argv !! 2%nat);; console_log [JsString "Done."])
            (λ e, console_log [JsString (message e)]).
End Script.

(** ** Reading traces *)

(** The commitment policy of a signing request: a [walletprocesspsbt] call
    whose [sign] is [true]. *)
Definition signing_policy (en : entry) : option SigHashType :=
  match en with
  | Entry (Wallet (walletprocesspsbt _ true sighashtype _ _)) _ => Some sighashtype
  | _ => None
  end.

Definition is_signing (en : entry) : bool :=
  bool_decide (is_Some (signing_policy en)).

(** A call that was rejected, or a [deepStrictEqual] that threw. *)
Definition is_failure (en : entry) : bool :=
  match en with
  | Entry _ (Rejected _) => true
  | Entry _ (Ok _) => false
  end.

Definition is_check (en : entry) : bool :=
  match en with
  | Entry (DeepStrictEqual _ _) _ => true
  | _ => false
  end.

Definition is_failed_check (en : entry) : bool := is_check en && is_failure en.

Definition is_console_error (en : entry) : bool :=
  match en with
  | Entry (ConsoleError _) _ => true
  | _ => false
  end.

Definition is_wallet_call (en : entry) : bool :=
  match en with
  | Entry (Wallet _) _ => true
  | _ => false
  end.

Definition is_sponsor_call (en : entry) : bool :=
  match en with
  | Entry (Sponsor _) _ => true
  | _ => false
  end.

(** A step of an exchange: a wallet call, a sponsor call on one exchange
    (submission, read, resubmission), or an equality check. *)
Definition is_protocol_step (en : entry) : bool :=
  match en with
  | Entry (Wallet _) _ => true
  | Entry (Sponsor (createPSBT _ _ _)) _
  | Entry (Sponsor (readPSBT _ _ _)) _
  | Entry (Sponsor (updatePSBT _ _ _ _)) _
  | Entry (Sponsor (createPSBTNI _ _ _)) _
  | Entry (Sponsor (readPSBTNI _ _ _)) _ => true
  | Entry (DeepStrictEqual _ _) _ => true
  | _ => false
  end.

(** The record answered to the initial submission [createPSBT]. *)
Definition created_offer (en : entry) : option PSBT :=
  match en with
  | Entry (Sponsor (createPSBT _ _ _)) (Ok r) => Some r
  | _ => None
  end.

(** The exchange id a sponsor call is made with. *)
Definition requested_id (en : entry) : option string :=
  match en with
  | Entry (Sponsor (readPSBT _ _ id)) _
  | Entry (Sponsor (updatePSBT _ _ id _)) _
  | Entry (Sponsor (readPSBTNI _ _ id)) _ => Some id
  | _ => None
  end.

(** The two operands of an equality check. *)
Definition check_operands (en : entry) : option (JsValue * JsValue) :=
  match en with
  | Entry (DeepStrictEqual actual expected) _ => Some (actual, expected)
  | _ => None
  end.

(** A record read back in [Broadcast] state. *)
Definition read_in_state (s : ExchangeState) (en : entry) : bool :=
  match en with
  | Entry (Sponsor (readPSBT _ _ _)) (Ok r) => bool_decide (Exchange.state r = s)
  | _ => false
  end.

Definition prints (line : list JsValue) (en : entry) : bool :=
  match en with
  | Entry (ConsoleLog args) _ => bool_decide (args = line)
  | _ => false
  end.

(** What the inputs hold beyond what the outputs pay: the fee a transaction
    leaves to the miner. *)
Definition paid_out (outputs : list TransactionOutput) : Qc :=
  foldr (λ o acc, map_fold (λ _ amount sum, amount + sum) 0 o + acc)%Qc 0%Qc outputs.

Definition allocated_fee (spent : list Qc) (outputs : list TransactionOutput) : Qc :=
  (foldr Qcplus 0 spent - paid_out outputs)%Qc.

(** ** A simulated wallet and sponsor

    Concrete collaborators to run the script against: a wallet that lists
    the coins of the world, and a sponsor that keeps a book of exchanges
    and behaves in one of several ways. *)
Module Simulation.

Inductive Behaviour :=
| Honest              (* adds its fee, answers reads from its book *)
| RewritesOnRead      (* a read answers a blob that differs from the book *)
| RedirectsFunds      (* answers a submission with a blob of its own making,
                         and stands by it on every read *)
| NeverBroadcasts     (* accepts the signed blob but leaves the exchange
                         unbroadcast *)
| RenumbersOnUpdate.  (* files the resubmitted exchange under a new id *)

Global Instance Behaviour_eq_dec : EqDecision Behaviour.
Proof. solve_decision. Defined.

Record World := mkWorld {
  utxos : list Utxo.t;
  clients : list (string * string);
  book : gmap string Exchange.t;
  behaviour : Behaviour
}.

Definition constants : FaasConstants :=
  {| ASSET_BTC := "BTC"; PAIR_BTC_USD := "BTC_USD" |}.

Definition half_a_coin : Utxo.t :=
  Utxo.mk "9f2c4a" 1 (Q2Qc (1 # 2)).

Definition start (coins : list Utxo.t) (b : Behaviour) : World :=
  mkWorld coins [] ∅ b.

Definition unknown_client : JsError := mkError "Error" "Unknown client.".
Definition unknown_exchange : JsError := mkError "Error" "Unknown exchange.".

Definition sim_wallet (c : wallet_call) : World → result (wallet_reply c) * World :=
  match c with
  | listunspent _ _ _ => λ w, (Ok (utxos w), w)
  | createpsbt _ _ _ _ => λ w, (Ok "cHNidP8BAFICAAAAAQ", w)
  | walletprocesspsbt blob sign _ _ _ =>
      λ w, (Ok (Processed.mk (if sign then blob +:+ "+customer" else blob) false), w)
  end.

Definition file (r : Exchange.t) (w : World) : World :=
  mkWorld (utxos w) (clients w) (<[Exchange.id r := r]> (book w)) (behaviour w).

Definition client_field (faas : Faas) (field : string * string → string) (w : World)
    : result string * World :=
  match faas with
  | FaasObject n =>
      match clients w !! n with
      | Some c => (Ok (field c), w)
      | None => (Rejected unknown_client, w)
      end
  end.

Definition submit (asset blob : string) (s : ExchangeState) (w : World)
    : result Exchange.t * World :=
  let blob' := if decide (behaviour w = RedirectsFunds)
               then "cHNidP8BAHECAAAAAg" else blob +:+ "+fee" in
  let r := Exchange.mk asset "1" s blob'
             (if decide (s = Broadcast) then Some "f4184fc5" else None) in
  (Ok r, file r w).

Definition read (id : string) (w : World) : result Exchange.t * World :=
  match book w !! id with
  | Some r =>
      (Ok (if decide (behaviour w = RewritesOnRead)
           then Exchange.mk (Exchange.asset r) (Exchange.id r) (Exchange.state r)
                            (Exchange.psbt r +:+ "+more") (Exchange.txid r)
           else r), w)
  | None => (Rejected unknown_exchange, w)
  end.

Definition resubmit (asset id blob : string) (w : World) : result Exchange.t * World :=
  match book w !! id with
  | Some _ =>
      let broadcast := bool_decide (behaviour w ≠ NeverBroadcasts) in
      let r := Exchange.mk asset
                 (if decide (behaviour w = RenumbersOnUpdate) then "2" else id)
                 (if broadcast then Broadcast else CustomerSigned)
                 (blob +:+ "+sponsor")
                 (if broadcast then Some "f4184fc5" else None) in
      (Ok r, file r w)
  | None => (Rejected unknown_exchange, w)
  end.

Definition sim_sponsor (c : faas_call) : World → result (faas_reply c) * World :=
  match c with
  | new_Faas url key =>
      λ w, (Ok (FaasObject (length (clients w))),
            mkWorld (utxos w) (clients w ++ [(url, key)]) (book w) (behaviour w))
  | faas_url faas => client_field faas fst
  | faas_key faas => client_field faas snd
  | readApiKey faas => client_field faas snd
  | readCredit _ => λ w, (Ok (Q2Qc 1000), w)
  | readFee _ _ => λ w, (Ok (Q2Qc 2), w)
  | readRate _ _ => λ w, (Ok (Q2Qc 65000), w)
  | createPSBT _ asset blob => submit asset blob FeeAdded
  | readPSBT _ _ id => read id
  | updatePSBT _ asset id blob => resubmit asset id blob
  | readPSBTs _ => λ w, (Ok (map_to_list (book w)).*2, w)
  | createPSBTNI _ asset blob => submit asset blob Broadcast
  | readPSBTNI _ _ id => read id
  | readPSBTNIs _ => λ w, (Ok (map_to_list (book w)).*2, w)
  end.

Definition collaborators : Collaborators World :=
  {| wallet := sim_wallet; sponsor := sim_sponsor |}.

(** The client [run] would have constructed first. *)
Definition client : Faas := FaasObject 0.

Definition run_psbt (coins : list Utxo.t) (b : Behaviour) : trace :=
  trace_of collaborators (@psbt constants client) (start coins b).

Definition run_psbtni (coins : list Utxo.t) (b : Behaviour) : trace :=
  trace_of collaborators (@psbtni constants client) (start coins b).

Definition run_main (argv : list string) (coins : list Utxo.t) (b : Behaviour) : trace :=
  trace_of collaborators (@main constants argv) (start coins b).

Definition nth_entry (n : nat) (t : trace) : entry :=
  default (Entry (ConsoleLog []) (Ok tt)) (t !! n).

Definition run_run (choice : option string) (coins : list Utxo.t) (b : Behaviour) : trace :=
  trace_of collaborators (@run constants choice) (start coins b).

(** What the honest sponsor answers to the submission, and what the
    rewriting sponsor answers to the read that follows. *)
Definition offered : PSBT :=
  Exchange.mk "BTC" "1" FeeAdded "cHNidP8BAFICAAAAAQ+fee" None.

Definition rewritten : PSBT :=
  Exchange.mk "BTC" "1" FeeAdded "cHNidP8BAFICAAAAAQ+fee+more" None.

Definition redirected : PSBT :=
Exchange.mk "BTC" "1" FeeAdded "cHNidP8BAHECAAAAAg" None.

Definition interactive : list string := ["node"; "main.js"; "psbt"].

End Simulation.


(** The blob handed to [updatePSBT]. *)
Definition resubmitted (en : entry) : option string :=
  match en with
  | Entry (Sponsor (updatePSBT _ _ _ blob)) _ => Some blob
  | _ => None
  end.

(** The record answered to the resubmission [updatePSBT]. *)
Definition updated_record (en : entry) : option PSBT :=
  match en with
  | Entry (Sponsor (updatePSBT _ _ _ _)) (Ok r) => Some r
  | _ => None
  end.

Definition is_passed_check (en : entry) : bool := is_check en && negb (is_failure en).

(** The blob of a signing request the wallet answered, with its answer. *)
Definition signed_by_wallet (en : entry) : option (string * SigHashType * Processed.t) :=
  match en with
  | Entry (Wallet (walletprocesspsbt blob true sighashtype _ _)) (Ok processed) =>
      Some (blob, sighashtype, processed)
  | _ => None
  end.

Definition is_passed_record_check (en : entry) : bool :=
  match en with
  | Entry (DeepStrictEqual (JsRecord _) (JsRecord _)) (Ok _) => true
  | _ => false
  end.


(** ** Properties of traces *)

(** In a trace a [deepStrictEqual] entry carries the verdict of
    [deepStrictEqual_result] on its two operands. *)
Definition verdict_recorded (en : entry) : Prop :=
  match en with
  | Entry (DeepStrictEqual actual expected) r => r = deepStrictEqual_result actual expected
  | _ => True
  end.

(** A failed check halts a flow: nothing follows it but the line, with
    the given label, that reports the assertion error. *)
Definition halts_on_failed_check (t : trace) (label : string) : Prop :=
  ∀ (pre : trace) (en : entry) (post : trace),
    t = pre ++ en :: post →
    is_failed_check en = true →
    post = [Entry (ConsoleError [JsString label; JsString (message AssertionError)])
                  (Ok tt)].

(** A failure ends a flow: nothing follows it but the line, with the given
    label, that reports the error. *)
Definition ends_on_failure (t : trace) (label : string) : Prop :=
  ∀ (pre : trace) (en : entry) (post : trace),
    t = pre ++ en :: post →
    is_failure en = true →
    ∃ message : string,
      post = [Entry (ConsoleError [JsString label; JsString message]) (Ok tt)].

(** What [run] makes outside the flows once it has printed the rate: the
    two listing queries and console lines. *)
Definition is_listing_or_line (en : entry) : bool :=
  match en with
  | Entry (Sponsor (readPSBTs _)) _ | Entry (Sponsor (readPSBTNIs _)) _ => true
  | Entry (ConsoleLog _) _ => true
  | _ => false
  end.

(** Nothing follows a failure but quiet entries: console lines, the line
    that reports the failure among them, and the two listing queries. *)
Definition quiet (en : entry) : Prop :=
  is_listing_or_line en || is_console_error en = true.

Definition settled (t : trace) : Prop :=
  ∀ (pre : trace) (en : entry) (post : trace),
    t = pre ++ en :: post → is_failure en = true → Forall quiet post.

(** The error an entry failed with. *)
Definition failure_of (en : entry) : option JsError :=
  match en with
  | Entry _ (Rejected e) => Some e
  | Entry _ (Ok _) => None
  end.

(** A flow reports the failure that ends it: nothing follows a failed entry
    but the line that carries the label and the message of its error. *)
Definition reports_failure (t : trace) (label : string) : Prop :=
  ∀ (pre : trace) (en : entry) (post : trace) (e : JsError),
    t = pre ++ en :: post →
    failure_of en = Some e →
    post = [Entry (ConsoleError [JsString label; JsString (message e)]) (Ok tt)].

Definition is_readPSBTs (en : entry) : bool :=
  match en with
  | Entry (Sponsor (readPSBTs _)) _ => true
  | _ => false
  end.

Definition is_readPSBTNIs (en : entry) : bool :=
  match en with
  | Entry (Sponsor (readPSBTNIs _)) _ => true
  | _ => false
  end.

(** The record the sponsor answered a submission or a resubmission with,
    and the record it answered a read with. *)
Definition answered_record (en : entry) : option Exchange.t :=
  match en with
  | Entry (Sponsor (createPSBT _ _ _)) (Ok r)
  | Entry (Sponsor (updatePSBT _ _ _ _)) (Ok r)
  | Entry (Sponsor (createPSBTNI _ _ _)) (Ok r) => Some r
  | _ => None
  end.

Definition refetched_record (en : entry) : option Exchange.t :=
  match en with
  | Entry (Sponsor (readPSBT _ _ _)) (Ok r)
  | Entry (Sponsor (readPSBTNI _ _ _)) (Ok r) => Some r
  | _ => None
  end.

(** A flow checks every round trip: a record read back from the sponsor
    comes, but for a console line, right after the sponsor's answer to the
    submission or resubmission before it, and is followed by the line that
    announces the check and by the check of the record read back against
    that answer; the check passes when the two are equal, and when they
    differ it throws the assertion error and the flow does nothing more
    than report it under its label. *)
Definition checked_after_round_trip (t : trace) (label : string) : Prop :=
  ∀ (pre : trace) (en : entry) (post : trace) (refetched : Exchange.t),
    t = pre ++ en :: post →
    refetched_record en = Some refetched →
    ∃ (before : trace) (answered : entry) (line : list JsValue)
      (expected : Exchange.t) (verdict : result unit) (rest : trace),
      pre = before ++ [answered; Entry (ConsoleLog line) (Ok tt)]
      ∧ answered_record answered = Some expected
      ∧ post = Entry (ConsoleLog [JsString "   "; JsString "Testing TX Equality"]) (Ok tt)
               :: Entry (DeepStrictEqual (JsRecord refetched) (JsRecord expected)) verdict
               :: rest
      ∧ (refetched = expected → verdict = Ok tt)
      ∧ (refetched ≠ expected →
         verdict = Rejected AssertionError
         ∧ rest = [Entry (ConsoleError [JsString label; JsString (message AssertionError)])
                         (Ok tt)]).

(** The claim that an empty list of coins makes the construction fail with
    the error NoFundsAvailable, for one run: when the wallet lists no coin,
    the error [getPSBT] throws has that name. *)
Definition fails_with_NoFundsAvailable {W : Type} (env : Collaborators W) (w : W)
    (sign : bool) (sighashtype : SigHashType) : Prop :=
  ∀ w1 : W,
    wallet env (listunspent 0 [OUTPUT_ADDRESS] WALLET_LABEL) w = (Ok [], w1) →
    ∃ message : string,
      outcome_of env (getPSBT sign sighashtype) w
      = Thrown (mkError "NoFundsAvailable" message).

(** The claim that a failure is terminal for the run, for one run: once
    something failed, [run] throws, and neither collaborator is called again. *)
Definition failure_aborts_run {W : Type} (env : Collaborators W) (w : W)
    (p : prog unit) : Prop :=
  ∀ (pre : trace) (en : entry) (post : trace),
    trace_of env p w = pre ++ en :: post →
    is_failure en = true →
    (∃ e, outcome_of env p w = Thrown e)
    ∧ Forall (λ e, is_wallet_call e = false ∧ is_sponsor_call e = false) post.

(** The claim that completion is reported only after a confirmed broadcast,
    for one trace: before the line ["Done."] there is a re-fetch that
    answered a record in [Broadcast] state, and two passed checks of records. *)
Definition completion_confirmed (t : trace) : Prop :=
  ∀ (pre : trace) (en : entry) (post : trace),
    t = pre ++ en :: post →
    prints [JsString "Done."] en = true →
    Exists (λ e, read_in_state Broadcast e = true) pre
    ∧ (2 ≤ length (filter (λ e, is_passed_record_check e = true) pre))%nat.

(** The claim of a stable exchange id, for one trace: after the submission
    every sponsor call that names an exchange names the id of the answer to
    the submission. *)
Definition exchange_id_stable (t : trace) : Prop :=
  ∀ (pre : trace) (en : entry) (post : trace) (offer : PSBT),
    t = pre ++ en :: post →
    created_offer en = Some offer →
    Forall (λ e, ∀ id, requested_id e = Some id → id = Exchange.id offer) post.

Section Judgements.
Context `{FaasConstants}.

(** What a collaborator call that follows the submission answered with
    [offer] may be, given the entries [mid] between the two. *)
Definition after_submission (faas : Faas) (offer : PSBT) (mid : trace) (en : entry) : Prop :=
  match en with
  | Entry (Wallet c) _ =>
      c = walletprocesspsbt (Exchange.psbt offer) true ALL true WALLET_LABEL
  | Entry (Sponsor c) _ =>
      (c = readPSBT faas (Exchange.asset offer) (Exchange.id offer)
       ∧ Forall (λ e, is_sponsor_call e = false) mid)
      ∨ (∃ processed : Processed.t,
           Exists (λ e, signed_by_wallet e = Some (Exchange.psbt offer, ALL, processed)) mid
           ∧ c = updatePSBT faas ASSET_BTC (Exchange.id offer) (Processed.psbt processed))
      ∨ (∃ final : PSBT,
           Exists (λ e, updated_record e = Some final) mid
           ∧ c = readPSBT faas (Exchange.asset final) (Exchange.id final))
  | _ => True
  end.

Context {W : Type} (env : Collaborators W).

(** Whatever the world, after a failure the program makes quiet entries only. *)
Definition Settled {A : Type} (p : prog A) : Prop :=
  ∀ w : W, settled (trace_of env p w).

(** A program is clean when a run of it that returns has met no failure. *)
Definition Clean {A : Type} (p : prog A) : Prop :=
  ∀ w : W, match interp env p w with
           | (t, _, Returned _) => Forall (λ e, is_failure e = false) t
           | (_, _, Thrown _) => True
           end.

Definition Quiet {A : Type} (p : prog A) : Prop :=
  ∀ w : W, Forall quiet (trace_of env p w).

End Judgements.

(** ** More readings of traces *)

(** The calls of the interactive interface of the sponsor, and those of the
    non-interactive one. *)
Definition is_interactive_call (en : entry) : bool :=
  match en with
  | Entry (Sponsor (createPSBT _ _ _)) _
  | Entry (Sponsor (readPSBT _ _ _)) _
  | Entry (Sponsor (updatePSBT _ _ _ _)) _ => true
  | _ => false
  end.

Definition is_noninteractive_call (en : entry) : bool :=
  match en with
  | Entry (Sponsor (createPSBTNI _ _ _)) _
  | Entry (Sponsor (readPSBTNI _ _ _)) _ => true
  | _ => false
  end.

(** The submission of a candidate: [createPSBT] or [createPSBTNI]. *)
Definition is_submission (en : entry) : bool :=
  match en with
  | Entry (Sponsor (createPSBT _ _ _)) _
  | Entry (Sponsor (createPSBTNI _ _ _)) _ => true
  | _ => false
  end.

Definition is_resubmission (en : entry) : bool :=
  match en with
  | Entry (Sponsor (updatePSBT _ _ _ _)) _ => true
  | _ => false
  end.

Definition is_construction (en : entry) : bool :=
  match en with
  | Entry (Sponsor (new_Faas _ _)) _ => true
  | _ => false
  end.

(** The client a method of [Faas] is called on. *)
Definition called_on (en : entry) : option Faas :=
  match en with
  | Entry (Sponsor c) _ =>
      match c with
      | new_Faas _ _ => None
      | faas_url f | faas_key f | readApiKey f | readCredit f | readFee f _
      | readRate f _ | createPSBT f _ _ | readPSBT f _ _ | updatePSBT f _ _ _
      | readPSBTs f | createPSBTNI f _ _ | readPSBTNI f _ _ | readPSBTNIs f => Some f
      end
  | _ => None
  end.

(** An entry that is no call of a method of another client than [faas]. *)
Definition on_client (faas : Faas) (en : entry) : Prop :=
  ∀ f : Faas, called_on en = Some f → f = faas.

(** A check of two strings: the checks [run] makes of its client. *)
Definition is_string_check (en : entry) : bool :=
  match en with
  | Entry (DeepStrictEqual (JsString _) (JsString _)) _ => true
  | _ => false
  end.

(** The wallet answered that it has no coin. *)
Definition lists_no_coin (en : entry) : bool :=
  match en with
  | Entry (Wallet (listunspent _ _ _)) (Ok []) => true
  | _ => false
  end.

(** The record answered to the submission [createPSBTNI]. *)
Definition created_final (en : entry) : option PSBTNI :=
  match en with
  | Entry (Sponsor (createPSBTNI _ _ _)) (Ok r) => Some r
  | _ => None
  end.

(** How many entries of a trace are of a kind. *)
Fixpoint count (kind : entry → bool) (t : trace) : nat :=
  match t with
  | [] => 0
  | en :: t' => (if kind en then 1 else 0) + count kind t'
  end.

(** What every wallet call of the script looks like: the coins asked for
    are those of [OUTPUT_ADDRESS], unconfirmed ones included; a transaction
    asked for has one input and one output, which pays [OUTPUT_ADDRESS] and
    nobody else, no lock time and the replaceable flag; processing asks for
    the derivation paths; the wallet is [WALLET_LABEL]. *)
Definition wallet_call_as_configured (en : entry) : Prop :=
  match en with
  | Entry (Wallet (listunspent minconf addresses label)) _ =>
      minconf = 0 ∧ addresses = [OUTPUT_ADDRESS] ∧ label = WALLET_LABEL
  | Entry (Wallet (createpsbt inputs outputs locktime replaceable)) _ =>
      length inputs = 1%nat
      ∧ (∃ amount : Qc, outputs = [{[OUTPUT_ADDRESS := amount]}])
      ∧ locktime = 0 ∧ replaceable = true
  | Entry (Wallet (walletprocesspsbt _ _ _ bip32derivs label)) _ =>
      bip32derivs = true ∧ label = WALLET_LABEL
  | _ => True
  end.


(** The line the process ends on, after [run] ended in [o]. *)
Definition final_line (o : outcome unit) : entry :=
  match o with
  | Returned _ => Entry (ConsoleLog [JsString "Done."]) (Ok tt)
  | Thrown e => Entry (ConsoleLog [JsString (message e)]) (Ok tt)
  end.

(** What [run] and the last statement make outside the two flows: the
    construction and the queries of the client, console lines, and the
    checks of strings. *)
Definition is_query_or_line (en : entry) : bool :=
  match en with
  | Entry (Wallet _) _ => false
  | Entry (Sponsor _) _ => negb (is_interactive_call en || is_noninteractive_call en)
  | Entry (ConsoleLog _) _ => true
  | Entry (ConsoleError _) _ => false
  | Entry (DeepStrictEqual _ _) _ => is_string_check en
  end.

Section MoreJudgements.
Context `{FaasConstants}.

(** What [run] does with its client once it has printed the rate: the
    statements from [if (choice === "psbt")] to the end. *)
Definition run_rest (choice : option string) (faas : Faas) : prog unit :=
  (if strict_equal choice "psbt" then psbt faas else mret tt);;
  readPSBTs1 ← call (Sponsor (readPSBTs faas));
  console_log [JsString "PSBTs"];;
  forEach_print 0 readPSBTs1;;
  (if strict_equal choice "psbtni" then psbtni faas else mret tt);;
  readPSBTNIs1 ← call (Sponsor (readPSBTNIs faas));
  console_log [JsString "PSBTNIs"];;
  forEach_print 0 readPSBTNIs1.

(** The entries [run] makes, its three checks passed, before it prints the
    credit: the client is [faas], and it and the account answer with the
    configured url and key. *)
Definition client_verified (faas : Faas) : trace :=
  [Entry (Sponsor (new_Faas FAAS_URL FAAS_KEY)) (Ok faas);
   Entry (Sponsor (faas_url faas)) (Ok FAAS_URL);
   Entry (DeepStrictEqual (JsString FAAS_URL) (JsString FAAS_URL)) (Ok tt);
   Entry (Sponsor (faas_key faas)) (Ok FAAS_KEY);
   Entry (DeepStrictEqual (JsString FAAS_KEY) (JsString FAAS_KEY)) (Ok tt);
   Entry (Sponsor (readApiKey faas)) (Ok FAAS_KEY);
   Entry (DeepStrictEqual (JsString FAAS_KEY) (JsString FAAS_KEY)) (Ok tt)].

Context {W : Type} (env : Collaborators W).

(** Whatever the world, every entry the program makes is as [P] says. *)
Definition Always (P : entry → Prop) {A : Type} (p : prog A) : Prop :=
  ∀ w : W, Forall P (trace_of env p w).

(** Whatever the world, the program makes at most [n] entries of a kind. *)
Definition AtMost (kind : entry → bool) (n : nat) {A : Type} (p : prog A) : Prop :=
  ∀ w : W, (count kind (trace_of env p w) ≤ n)%nat.
End MoreJudgements.

(** ** A sponsor that answers with another key

    The simulated sponsor, but for an account whose key was replaced: the
    client still holds the configured key, [readApiKey] answers another. *)
Module ReplacedKey.

Definition sponsor_with_new_key (c : faas_call)
    : Simulation.World → result (faas_reply c) * Simulation.World :=
  match c with
  | readApiKey _ => λ w, (Ok "7c1e", w)
  | c' => Simulation.sim_sponsor c'
  end.

Definition collaborators : Collaborators Simulation.World :=
  {| wallet := Simulation.sim_wallet; sponsor := sponsor_with_new_key |}.

Definition run_run (choice : option string) : trace :=
  trace_of collaborators (@run Simulation.constants choice)
           (Simulation.start [Simulation.half_a_coin] Simulation.Honest).

(** What the honest sponsor answers to the pre-signed submission, and what
    the rewriting sponsor answers to the read that follows. *)
Definition sent_on : PSBTNI :=
  Exchange.mk "BTC" "1" Broadcast "cHNidP8BAFICAAAAAQ+customer+fee" (Some "f4184fc5").

Definition sent_on_rewritten : PSBTNI :=
  Exchange.mk "BTC" "1" Broadcast "cHNidP8BAFICAAAAAQ+customer+fee+more" (Some "f4184fc5").

End ReplacedKey.

(** * Proofs *)

(** ** Reasoning about runs *)

(** An entry of a list cuts it into what comes before and what comes after. *)
Lemma elem_split {A : Type} (l pre : list A) (x : A) (post : list A) :
  l = pre ++ x :: post →
  ∃ n : nat, l !! n = Some x ∧ pre = take n l ∧ post = drop (S n) l.
Proof.
  intros ->. exists (length pre). split; [|split].
  - by rewrite list_lookup_middle.
  - by rewrite take_app_length.
  - change (pre ++ x :: post) with (pre ++ [x] ++ post).
    rewrite app_assoc. rewrite drop_app_length'; [done|].
    rewrite length_app. cbn. lia.
Qed.

Ltac run_cbn :=
  cbn [interp bind try_catch mbind mret prog_bind prog_ret call console_log
       console_error deepStrictEqual get_property respond fst snd
       lookup list_lookup].

(** One step of a run: the answer of the collaborator, or of the check, is
    either a value or an error. *)
Ltac run_step :=
  match goal with
  | |- context [wallet ?env ?c ?w] =>
      let r := fresh "r" in let e := fresh "e" in let w' := fresh "w" in
      destruct (wallet env c w) as [[r|e] w']
  | |- context [sponsor ?env ?c ?w] =>
      let r := fresh "r" in let e := fresh "e" in let w' := fresh "w" in
      destruct (sponsor env c w) as [[r|e] w']
  | |- context [deepStrictEqual_result ?a ?b] =>
      unfold deepStrictEqual_result; destruct (decide (a = b))
  | |- context [@lookup _ _ _ _ 0%nat ?l] => destruct l
  end;
  run_cbn.

Ltac run_flow :=
  unfold trace_of, outcome_of, psbt, psbt_then, psbtni, psbtni_then, getPSBT, processPSBT;
  run_cbn; repeat run_step; cbn [fst snd].

(** Every way of cutting a listed trace at one of its entries. *)
Ltac cut_cases H :=
  let n := fresh "n" in let Hn := fresh "Hn" in
  apply elem_split in H as (n & Hn & -> & ->);
  repeat (destruct n as [|n];
          [cbn [lookup list_lookup] in Hn; injection Hn as <-; cbn [take drop] |]);
  [.. | by cbn [lookup list_lookup] in Hn].

Ltac find_entry :=
  repeat first [ by apply Exists_cons_hd | apply Exists_cons_tl ].

(** A listed trace, all of whose entries are said to be free of console
    errors, has none. *)
Ltac no_console_error H :=
  repeat (let Hhd := fresh "Hhd" in
          apply Forall_cons in H as [Hhd H]; try (by cbn in Hhd); clear Hhd).

(** The entries before a check and its four forerunners: five before the
    first check, thirteen before the second. *)
Ltac exists_before :=
  first [ refine (ex_intro _ [_; _; _; _; _] _);
          do 4 eexists; split; [reflexivity|]
        | refine (ex_intro _ [_; _; _; _; _; _; _; _; _; _; _; _; _] _);
          do 4 eexists; split; [reflexivity|] ].

Ltac same_records :=
  repeat match goal with
         | Heq : JsRecord _ = JsRecord _ |- _ => injection Heq as ->
         end.

(** A record was read back: the answer before it, after five entries or
    after thirteen, and the check that follows, passed or failed as the two
    records are equal or not. *)
Ltac round_trip_checked :=
  first [ refine (ex_intro _ [_; _; _; _; _] _);
          do 5 eexists; split; [reflexivity|]
        | refine (ex_intro _ [_; _; _; _; _; _; _; _; _; _; _; _; _] _);
          do 5 eexists; split; [reflexivity|] ];
  split; [reflexivity|]; split; [reflexivity|];
  split; [intros ?|intros ?]; first [ done | congruence ].

Section Claims.
Context `{FaasConstants} {W : Type} (env : Collaborators W).

(** *** The monad of programs and its runs *)

Lemma interp_bind {A B : Type} (p : prog A) (f : A → prog B) (w : W) :
  interp env (p ≫= f) w =
    match interp env p w with
    | (t, w1, Returned a) =>
        let '(t2, w2, o) := interp env (f a) w1 in (t ++ t2, w2, o)
    | (t, w1, Thrown e) => (t, w1, Thrown e)
    end.
Proof.
  revert w. induction p as [a|e|a k IH]; intros w.
  - change (interp env (f a) w = let '(t2, w2, o) := interp env (f a) w in ([] ++ t2, w2, o)).
    by destruct (interp env (f a) w) as [[t2 w2] o].
  - done.
  - change (Act a k ≫= f) with (Act a (λ r, k r ≫= f)). cbn [interp].
    destruct (respond env a w) as [r w1]. rewrite IH.
    destruct (interp env (k r) w1) as [[t w2] [x|e]]; [|done].
    by destruct (interp env (f x) w2) as [[t2 w3] o].
Qed.

Lemma interp_try_catch {A : Type} (p : prog A) (h : JsError → prog A) (w : W) :
  interp env (try_catch p h) w =
    match interp env p w with
    | (t, w1, Returned a) => (t, w1, Returned a)
    | (t, w1, Thrown e) =>
        let '(t2, w2, o) := interp env (h e) w1 in (t ++ t2, w2, o)
    end.
Proof.
  revert w. induction p as [a|e|a k IH]; intros w.
  - done.
  - cbn [try_catch interp]. by destruct (interp env (h e) w) as [[t2 w2] o].
  - cbn [try_catch interp].
    destruct (respond env a w) as [r w1]. rewrite IH.
    destruct (interp env (k r) w1) as [[t w2] [x|e]]; [done|].
    by destruct (interp env (h e) w2) as [[t2 w3] o].
Qed.

Lemma verdicts_recorded {A : Type} (p : prog A) (w : W) :
  Forall verdict_recorded (trace_of env p w).
Proof.
  unfold trace_of. revert w.
  induction p as [a|e|a k IH]; intros w; cbn [interp fst]; [constructor..|].
  destruct (respond env a w) as [r w1] eqn:Hr.
  specialize (IH r w1). destruct (interp env (k r) w1) as [[t w2] o].
  cbn [fst] in *. constructor; [|done].
  destruct a; cbn in *; try done. congruence.
Qed.

Lemma deepStrictEqual_records (observed expected : Exchange.t) :
  deepStrictEqual_result (JsRecord observed) (JsRecord expected) =
  if decide (observed = expected) then Ok tt else Rejected AssertionError.
Proof.
  unfold deepStrictEqual_result. repeat case_decide; congruence.
Qed.

(** *** The two flows *)

(** C1: the Commitment Verifier passes exactly when the observed record
    equals the expected one, and throws the assertion error as soon as the
    asset, the id, the state, the blob (or the txid) differ.  Both flows
    run it after every round trip: each record read back from the sponsor
    is at once checked against the sponsor's answer before it, the flow
    goes on when the two are equal, and when they differ the check throws
    and the flow halts, doing nothing more than report the assertion error;
    every check carries the verdict of the verifier. *)
Theorem commitment_verifier :
  (∀ observed expected : Exchange.t,
     deepStrictEqual_result (JsRecord observed) (JsRecord expected) = Ok tt
     ↔ observed = expected)
  ∧ (∀ observed expected : Exchange.t,
       Exchange.asset observed ≠ Exchange.asset expected
       ∨ Exchange.id observed ≠ Exchange.id expected
       ∨ Exchange.state observed ≠ Exchange.state expected
       ∨ Exchange.psbt observed ≠ Exchange.psbt expected
       ∨ Exchange.txid observed ≠ Exchange.txid expected →
       deepStrictEqual_result (JsRecord observed) (JsRecord expected)
       = Rejected AssertionError)
  ∧ (∀ (w : W) (faas : Faas),
       Forall verdict_recorded (trace_of env (psbt faas) w)
       ∧ halts_on_failed_check (trace_of env (psbt faas) w) "PSBT failed:"
       ∧ checked_after_round_trip (trace_of env (psbt faas) w) "PSBT failed:")
  ∧ (∀ (w : W) (faas : Faas),
       Forall verdict_recorded (trace_of env (psbtni faas) w)
       ∧ halts_on_failed_check (trace_of env (psbtni faas) w) "PSBTNI failed:"
       ∧ checked_after_round_trip (trace_of env (psbtni faas) w) "PSBTNI failed:").
Proof.
  split; [|split; [|split]].
  - intros observed expected. rewrite deepStrictEqual_records.
    case_decide; split; congruence.
  - intros observed expected Hne. rewrite deepStrictEqual_records.
    case_decide as Heq; [|done]. subst.
    repeat (destruct Hne as [Hne|Hne]; [done|]). done.
  - intros w faas. split; [apply verdicts_recorded|]. split.
    + unfold halts_on_failed_check.
      run_flow; intros pre en post Hcut Hen; cut_cases Hcut; by cbn in Hen.
    + unfold checked_after_round_trip.
      run_flow; intros pre en post refetched Hcut Hen; cut_cases Hcut;
        try (by cbn in Hen); injection Hen as <-; round_trip_checked.
  - intros w faas. split; [apply verdicts_recorded|]. split.
    + unfold halts_on_failed_check.
      run_flow; intros pre en post Hcut Hen; cut_cases Hcut; by cbn in Hen.
    + unfold checked_after_round_trip.
      run_flow; intros pre en post refetched Hcut Hen; cut_cases Hcut;
        try (by cbn in Hen); injection Hen as <-; round_trip_checked.
Qed.

(** C2: in the interactive flow a signing request with the full
    commitment comes only right after the check of the re-fetched record
    against the sponsor's answer to the submission has passed, and it is
    for the blob of that answer; after a failed check no signing request
    is made. *)
Theorem full_signing_only_after_check (w : W) (faas : Faas)
    (pre : trace) (en : entry) (post : trace) :
  trace_of env (psbt faas) w = pre ++ en :: post →
  (signing_policy en = Some ALL →
   ∃ (before : trace) (candidate : string) (offer : PSBT) (answer : result Processed.t),
     pre = before ++
           [Entry (Sponsor (createPSBT faas ASSET_BTC candidate)) (Ok offer);
            Entry (ConsoleLog [JsString "   "; JsString "Retrieving Candidate TX"]) (Ok tt);
            Entry (Sponsor (readPSBT faas (Exchange.asset offer) (Exchange.id offer)))
                  (Ok offer);
            Entry (ConsoleLog [JsString "   "; JsString "Testing TX Equality"]) (Ok tt);
            Entry (DeepStrictEqual (JsRecord offer) (JsRecord offer)) (Ok tt);
            Entry (ConsoleLog [JsString "   "; JsString "Signing TX with Added Fees"]) (Ok tt)]
     ∧ Forall (λ e, is_signing e = false) before
     ∧ en = Entry (Wallet (walletprocesspsbt (Exchange.psbt offer) true ALL true WALLET_LABEL))
                  answer)
  ∧ (is_failed_check en = true → Forall (λ e, is_signing e = false) post).
Proof.
  run_flow; intros Hcut; cut_cases Hcut; (split; [intros Hen|intros Hen]);
    try (by cbn in Hen); try (by repeat constructor).
  all: repeat match goal with
              | Heq : JsRecord _ = JsRecord _ |- _ => injection Heq as ->
              end.
  all: refine (ex_intro _ [_; _; _; _; _] _); do 3 eexists;
    split; [reflexivity|]; split; [by repeat constructor|reflexivity].
Qed.

(** C5: every signing request of the interactive flow carries the full
    commitment and comes after the sponsor has answered the submission
    with its fee-augmented record; every signing request of the
    non-interactive flow carries ALL|ANYONECANPAY and comes before anything
    is sent to the sponsor.  What is sent back to the sponsor (interactive)
    or sent at all (non-interactive) is sent after such a request. *)
Theorem commitment_policy_per_step (w : W) (faas : Faas) :
  (∀ (pre : trace) (en : entry) (post : trace),
     trace_of env (psbt faas) w = pre ++ en :: post →
     (∀ policy, signing_policy en = Some policy →
        policy = ALL ∧ Exists (λ e, is_Some (created_offer e)) pre)
     ∧ (is_Some (resubmitted en) →
        Exists (λ e, signing_policy e = Some ALL) pre))
  ∧ (∀ (pre : trace) (en : entry) (post : trace),
       trace_of env (psbtni faas) w = pre ++ en :: post →
       (∀ policy, signing_policy en = Some policy →
          policy = ALL_ANYONECANPAY ∧ Forall (λ e, is_sponsor_call e = false) pre)
       ∧ (is_sponsor_call en = true →
          Exists (λ e, signing_policy e = Some ALL_ANYONECANPAY) pre)).
Proof.
  split.
  - run_flow; intros pre en post Hcut; cut_cases Hcut;
      (split; [intros policy Hen|intros Hen]);
      try (by cbn in Hen); try (by destruct Hen);
      try (injection Hen as <-; split; [done|]);
      repeat first [ by apply Exists_cons_hd; cbn | apply Exists_cons_tl ].
  - run_flow; intros pre en post Hcut; cut_cases Hcut;
      (split; [intros policy Hen|intros Hen]);
      try (by cbn in Hen);
      try (injection Hen as <-; split; [done|by repeat constructor]);
      repeat first [ by apply Exists_cons_hd; cbn | apply Exists_cons_tl ].
Qed.
(** C9: each equality check of the interactive flow has, as its observed
    operand, the record just re-fetched from the sponsor and, as its expected
    operand, the record of the sponsor's answer before that re-fetch (the
    answer to createPSBT for the first check, to updatePSBT for the second),
    which is also where the asset and id of the re-fetch come from; the
    check passes exactly when these two sponsor records are equal, whatever
    they hold, the customer's candidate playing no part. *)
Theorem checks_compare_sponsor_answers (w : W) (faas : Faas)
    (pre : trace) (en : entry) (post : trace) (actual expected : JsValue) :
  trace_of env (psbt faas) w = pre ++ en :: post →
  check_operands en = Some (actual, expected) →
  ∃ (before : trace) (answered : entry) (line : list JsValue) (r refetched : PSBT),
    pre = before ++
          [answered;
           Entry (ConsoleLog line) (Ok tt);
           Entry (Sponsor (readPSBT faas (Exchange.asset r) (Exchange.id r))) (Ok refetched);
           Entry (ConsoleLog [JsString "   "; JsString "Testing TX Equality"]) (Ok tt)]
    ∧ (created_offer answered = Some r ∧ Forall (λ e, is_check e = false) before
       ∨ updated_record answered = Some r ∧ Exists (λ e, is_passed_check e = true) before)
    ∧ actual = JsRecord refetched
    ∧ expected = JsRecord r
    ∧ (is_failure en = false ↔ refetched = r).
Proof.
  run_flow; intros Hcut Hen; cut_cases Hcut; try (by cbn in Hen).
  all: injection Hen as <- <-.
  all: exists_before.
  all: split; [first [ left; split; [reflexivity|by repeat constructor]
                     | right; split; [reflexivity|];
                       repeat first [ by apply Exists_cons_hd | apply Exists_cons_tl ] ]|].
  all: split; [reflexivity|]; split; [reflexivity|].
  all: cbn [is_failure]; split; [try done|]; try congruence.
  all: intros _; congruence.
Qed.

(** C10, as the code has it: after the submission of the interactive flow
    was answered with [offer], the wallet is only asked to sign the blob of
    [offer] with the full commitment, and the sponsor is only asked to read
    the exchange of [offer], then to update the exchange with the id of
    [offer] with the blob the wallet answered, then to read the exchange
    whose asset and id the answer to the update names. *)
Theorem exchange_calls_follow_answers (w : W) (faas : Faas)
    (pre : trace) (en : entry) (post : trace) (offer : PSBT) :
  trace_of env (psbt faas) w = pre ++ en :: post →
  created_offer en = Some offer →
  ∀ (mid : trace) (en' : entry) (rest : trace),
    post = mid ++ en' :: rest →
    after_submission faas offer mid en'.
Proof.
  run_flow; intros Hcut Hen; cut_cases Hcut; try (by cbn in Hen).
  all: injection Hen as <-.
  all: intros mid en' rest Hcut'; cut_cases Hcut'; cbn [after_submission]; try done.
  all: first
         [ by left; split; [reflexivity|repeat constructor]
         | right; left; eexists; split; [|reflexivity];
           repeat first [ by apply Exists_cons_hd | apply Exists_cons_tl ]
         | right; right; eexists; split; [|reflexivity];
           repeat first [ by apply Exists_cons_hd | apply Exists_cons_tl ] ].
Qed.
(** C4, as the code has it: the interactive flow ends without a line that
    reports a failure only when it ends on a passed check of the record
    re-fetched last against the sponsor's answer to the resubmission, a
    check having passed before; what state that record is in plays no part. *)
Theorem flow_completes_after_second_check (w : W) (faas : Faas) :
  Forall (λ e, is_console_error e = false) (trace_of env (psbt faas) w) →
  ∃ (before : trace) (answered : entry) (final : PSBT),
    trace_of env (psbt faas) w =
      before ++
      [answered;
       Entry (ConsoleLog [JsString "   "; JsString "Retrieving Final TX"]) (Ok tt);
       Entry (Sponsor (readPSBT faas (Exchange.asset final) (Exchange.id final))) (Ok final);
       Entry (ConsoleLog [JsString "   "; JsString "Testing TX Equality"]) (Ok tt);
       Entry (DeepStrictEqual (JsRecord final) (JsRecord final)) (Ok tt)]
    ∧ updated_record answered = Some final
    ∧ Exists (λ e, is_passed_check e = true) before
    ∧ outcome_of env (psbt faas) w = Returned tt.
Proof.
  run_flow; intros Hall; try (exfalso; no_console_error Hall; fail).
  same_records.
  refine (ex_intro _ [_; _; _; _; _; _; _; _; _; _; _; _; _] _).
  do 2 eexists. split; [reflexivity|]. split; [reflexivity|].
  split; [find_entry|reflexivity].
Qed.

(** *** The wallet side and the entry point *)

Lemma paid_out_single (address : string) (amount : Qc) :
  paid_out [{[address := amount]}] = amount.
Proof.
  unfold paid_out. cbn [foldr]. rewrite map_fold_singleton. ring.
Qed.

(** C6: when the wallet lists at least one coin, [getPSBT] asks it for a
    transaction whose single input is the first listed coin and whose
    single output pays that coin's whole amount to [OUTPUT_ADDRESS], which
    leaves no fee, with no lock time and the replaceable flag set; it then
    has the wallet process the blob with the [sign] flag as given (so
    unsigned when [sign] is [false]) and returns the processed blob. *)
Theorem candidate_construction (w : W) (sign : bool) (sighashtype : SigHashType)
    (coin : Utxo.t) (others : list Utxo.t) (w1 : W) :
  wallet env (listunspent 0 [OUTPUT_ADDRESS] WALLET_LABEL) w = (Ok (coin :: others), w1) →
  let inputs := [TxIn.mk (Utxo.txid coin) (Utxo.vout coin)] in
  let outputs : list TransactionOutput := [{[OUTPUT_ADDRESS := Utxo.amount coin]}] in
  let listed := Entry (Wallet (listunspent 0 [OUTPUT_ADDRESS] WALLET_LABEL))
                      (Ok (coin :: others)) in
  let create := Wallet (createpsbt inputs outputs 0 true) in
  interp env (getPSBT sign sighashtype) w =
    match wallet env (createpsbt inputs outputs 0 true) w1 with
    | (Rejected e, w2) => ([listed; Entry create (Rejected e)], w2, Thrown e)
    | (Ok blob, w2) =>
        let process := Wallet (walletprocesspsbt blob sign sighashtype true WALLET_LABEL) in
        match wallet env (walletprocesspsbt blob sign sighashtype true WALLET_LABEL) w2 with
        | (Rejected e, w3) =>
            ([listed; Entry create (Ok blob); Entry process (Rejected e)], w3, Thrown e)
        | (Ok processed, w3) =>
            ([listed; Entry create (Ok blob); Entry process (Ok processed)], w3,
             Returned (Processed.psbt processed))
        end
    end
  ∧ allocated_fee [Utxo.amount coin] outputs = 0%Qc
  ∧ (sign = false →
     Forall (λ e, is_signing e = false) (trace_of env (getPSBT sign sighashtype) w)).
Proof.
  intros Hlist inputs outputs listed create. split; [|split].
  - unfold getPSBT. run_cbn. rewrite Hlist. run_cbn.
    subst inputs outputs listed create.
    destruct (wallet env _ w1) as [[blob|e] w2]; run_cbn; [|done].
    by destruct (wallet env _ w2) as [[processed|e] w3].
  - unfold allocated_fee. subst outputs. rewrite paid_out_single.
    cbn [foldr]. ring.
  - intros ->. unfold trace_of, getPSBT. run_cbn. rewrite Hlist. run_cbn.
    repeat run_step; cbn [fst]; by repeat constructor.
Qed.

(** C8: when the wallet lists no coin, [getPSBT] fails on reading the first
    coin, with the error of reading a property of [undefined], before it
    asks the wallet for anything else; either flow then ends on the line
    that reports this error. *)
Theorem no_funds_available (w : W) (sign : bool) (sighashtype : SigHashType) (w1 : W) :
  wallet env (listunspent 0 [OUTPUT_ADDRESS] WALLET_LABEL) w = (Ok [], w1) →
  let listed := Entry (Wallet (listunspent 0 [OUTPUT_ADDRESS] WALLET_LABEL)) (Ok []) in
  interp env (getPSBT sign sighashtype) w = ([listed], w1, Thrown (TypeError "txid"))
  ∧ (∀ faas,
       interp env (psbt faas) w =
         ([Entry (ConsoleLog [JsString "Starting FaaS in Interactive Mode (PSBT)"]) (Ok tt);
           listed;
           Entry (ConsoleError [JsString "PSBT failed:";
                                JsString (message (TypeError "txid"))]) (Ok tt)],
          w1, Returned tt))
  ∧ (∀ faas,
       interp env (psbtni faas) w =
         ([Entry (ConsoleLog [JsString "Starting FaaS in Non-Interactive Mode (PSBTNI)"])
                 (Ok tt);
           listed;
           Entry (ConsoleError [JsString "PSBTNI failed:";
                                JsString (message (TypeError "txid"))]) (Ok tt)],
          w1, Returned tt)).
Proof.
  intros Hlist listed. split; [|split]; intros;
    unfold psbt, psbtni, getPSBT; run_cbn; rewrite Hlist; by run_cbn.
Qed.

Lemma includes_values (choice : option string) :
  includes UserChoice.values choice = true ↔
  choice = Some "basic" ∨ choice = Some "psbt" ∨ choice = Some "psbtni".
Proof.
  destruct choice as [s|]; cbn [includes].
  - rewrite bool_decide_eq_true. unfold UserChoice.values, UserChoice.Basic,
      UserChoice.PSBT, UserChoice.PSBTNI.
    rewrite !elem_of_cons, elem_of_nil.
    split; [intros [->|[->|[->|[]]]]; auto | intros [[= ->]|[[= ->]|[= ->]]]; auto].
  - split; [done | intros [|[|]]; done].
Qed.

(** C7: with a mode selector that is none of the three recognized values
    (or with none at all) [run] throws its error at once: no action is
    performed, so no [Faas] client is constructed and neither collaborator
    is called; all the process does is print the message. *)
Theorem invalid_mode (w : W) (choice : option string) :
  choice ≠ Some "basic" → choice ≠ Some "psbt" → choice ≠ Some "psbtni" →
  interp env (run choice) w = ([], w, Thrown (mkError "Error" "Invalid user choice."))
  ∧ ∀ argv : list string,
      argv !! 2%nat = choice →
      interp env (main argv) w =
        ([Entry (ConsoleLog [JsString "Invalid user choice."]) (Ok tt)], w, Returned tt).
Proof.
  intros Hbasic Hpsbt Hpsbtni.
  assert (includes UserChoice.values choice = false) as Hno.
  { apply not_true_is_false. rewrite includes_values. intros [|[|]]; done. }
  split.
  - unfold run. by rewrite Hno.
  - intros argv Hargv. unfold main, run. by rewrite Hargv, Hno.
Qed.

(** *** A failure is followed by quiet entries only *)

Lemma settled_app (t1 t2 : trace) :
  settled t1 → settled t2 →
  Forall (λ e, is_failure e = false) t1 ∨ Forall quiet t2 →
  settled (t1 ++ t2).
Proof.
  intros H1 H2 Hor pre en post Hcut Hen.
  apply app_eq_app in Hcut as [l [[-> Hcut]|[-> Hcut]]].
  - destruct l as [|x l].
    + rewrite app_nil_l in Hcut. subst t2. rewrite app_nil_r in *.
      destruct Hor as [Hclean|Hquiet].
      * by eapply (H2 []).
      * by apply Forall_cons in Hquiet as [_ ?].
    + injection Hcut as <- ->. apply Forall_app. split.
      * by eapply (H1 pre).
      * destruct Hor as [Hclean|Hquiet]; [|done].
        apply Forall_app in Hclean as [_ Hclean].
        apply Forall_cons in Hclean as [Hclean _]. congruence.
  - by eapply (H2 l).
Qed.

Lemma settled_quiet (t : trace) : Forall quiet t → settled t.
Proof.
  intros Hq pre en post -> _.
  apply Forall_app in Hq as [_ Hq]. by apply Forall_cons in Hq as [_ ?].
Qed.

Lemma Settled_bind_clean {A B : Type} (p : prog A) (f : A → prog B) :
  Clean env p → Settled env p → (∀ a, Settled env (f a)) → Settled env (p ≫= f).
Proof.
  intros Hc Hp Hf w. unfold trace_of. rewrite interp_bind.
  specialize (Hc w). specialize (Hp w). unfold trace_of in Hp.
  destruct (interp env p w) as [[t w1] [a|e]]; [|done].
  specialize (Hf a w1). unfold trace_of in Hf.
  destruct (interp env (f a) w1) as [[t2 w2] o]. cbn [fst] in *.
  apply settled_app; auto.
Qed.

Lemma Settled_bind_quiet {A B : Type} (p : prog A) (f : A → prog B) :
  Settled env p → (∀ a, Quiet env (f a)) → Settled env (p ≫= f).
Proof.
  intros Hp Hf w. unfold trace_of. rewrite interp_bind.
  specialize (Hp w). unfold trace_of in Hp.
  destruct (interp env p w) as [[t w1] [a|e]]; [|done].
  specialize (Hf a w1). unfold trace_of in Hf.
  destruct (interp env (f a) w1) as [[t2 w2] o]. cbn [fst] in *.
  apply settled_app; auto using settled_quiet.
Qed.

Lemma Settled_try_catch {A : Type} (p : prog A) (h : JsError → prog A) :
  Settled env p → (∀ e, Quiet env (h e)) → Settled env (try_catch p h).
Proof.
  intros Hp Hh w. unfold trace_of. rewrite interp_try_catch.
  specialize (Hp w). unfold trace_of in Hp.
  destruct (interp env p w) as [[t w1] [a|e]]; [done|].
  specialize (Hh e w1). unfold trace_of in Hh.
  destruct (interp env (h e) w1) as [[t2 w2] o]. cbn [fst] in *.
  apply settled_app; auto using settled_quiet.
Qed.

Lemma Quiet_bind {A B : Type} (p : prog A) (f : A → prog B) :
  Quiet env p → (∀ a, Quiet env (f a)) → Quiet env (p ≫= f).
Proof.
  intros Hp Hf w. unfold trace_of. rewrite interp_bind.
  specialize (Hp w). unfold trace_of in Hp.
  destruct (interp env p w) as [[t w1] [a|e]]; [|done].
  specialize (Hf a w1). unfold trace_of in Hf.
  destruct (interp env (f a) w1) as [[t2 w2] o]. cbn [fst] in *.
  by apply Forall_app.
Qed.

Lemma Quiet_ret {A : Type} (a : A) : Quiet env (mret a).
Proof. intros w. constructor. Qed.

Lemma Quiet_call (a : action) :
  (∀ r, quiet (Entry a r)) → Quiet env (call a).
Proof.
  intros Ha w. unfold trace_of, call. cbn [interp].
  destruct (respond env a w) as [[x|e] w1]; cbn [interp fst];
    (constructor; [apply Ha|constructor]).
Qed.

Lemma Settled_call (a : action) : Settled env (call a).
Proof.
  intros w. unfold trace_of, call. cbn [interp].
  destruct (respond env a w) as [[x|e] w1]; cbn [interp fst];
    intros pre en post Hcut _; cut_cases Hcut; constructor.
Qed.

Lemma Clean_call (a : action) : Clean env (call a).
Proof.
  intros w. unfold call. cbn [interp].
  destruct (respond env a w) as [[x|e] w1]; cbn [interp]; by repeat constructor.
Qed.

Lemma Settled_ret {A : Type} (a : A) : Settled env (mret a).
Proof. intros w. by apply settled_quiet. Qed.

(** The rules for a call, at the action the goal names. *)
Ltac quiet_call :=
  match goal with |- Quiet _ (call ?a) => by apply (Quiet_call a) end.
Ltac clean_call :=
  match goal with |- Clean _ (call ?a) => apply (Clean_call a) end.
Ltac settled_one_call :=
  match goal with |- Settled _ (call ?a) => apply (Settled_call a) end.

Lemma Clean_ret {A : Type} (a : A) : Clean env (mret a).
Proof. intros w. constructor. Qed.

Lemma Clean_bind {A B : Type} (p : prog A) (f : A → prog B) :
  Clean env p → (∀ a, Clean env (f a)) → Clean env (p ≫= f).
Proof.
  intros Hp Hf w. rewrite interp_bind. specialize (Hp w).
  destruct (interp env p w) as [[t w1] [a|e]]; [|done].
  specialize (Hf a w1).
  destruct (interp env (f a) w1) as [[t2 w2] [b|e]]; [|done].
  by apply Forall_app.
Qed.

Lemma Quiet_forEach_print (i : nat) (records : list Exchange.t) :
  Quiet env (forEach_print i records).
Proof.
  revert i. induction records as [|r records IH]; intros i; cbn [forEach_print].
  - apply Quiet_ret.
  - unfold console_log.
    apply Quiet_bind; [quiet_call|intros _].
    apply Quiet_bind; [quiet_call|intros _]. apply IH.
Qed.

Lemma Clean_forEach_print (i : nat) (records : list Exchange.t) :
  Clean env (forEach_print i records).
Proof.
  revert i. induction records as [|r records IH]; intros i; cbn [forEach_print].
  - apply Clean_ret.
  - unfold console_log.
    apply Clean_bind; [clean_call|intros _].
    apply Clean_bind; [clean_call|intros _]. apply IH.
Qed.

Lemma psbt_ends_on_failure (w : W) (faas : Faas) :
  ends_on_failure (trace_of env (psbt faas) w) "PSBT failed:".
Proof.
  unfold ends_on_failure.
  run_flow; intros pre en post Hcut Hen; cut_cases Hcut; try (by cbn in Hen); by eexists.
Qed.

Lemma psbtni_ends_on_failure (w : W) (faas : Faas) :
  ends_on_failure (trace_of env (psbtni faas) w) "PSBTNI failed:".
Proof.
  unfold ends_on_failure.
  run_flow; intros pre en post Hcut Hen; cut_cases Hcut; try (by cbn in Hen); by eexists.
Qed.

Lemma flows_return (w : W) (faas : Faas) :
  outcome_of env (psbt faas) w = Returned tt
  ∧ outcome_of env (psbtni faas) w = Returned tt.
Proof. split; by run_flow. Qed.

Lemma ends_on_failure_settled (t : trace) (label : string) :
  ends_on_failure t label → settled t.
Proof.
  intros Ht pre en post Hcut Hen.
  destruct (Ht pre en post Hcut Hen) as [m ->]. by repeat constructor.
Qed.

Lemma Settled_psbt (faas : Faas) : Settled env (psbt faas).
Proof. intros w. eapply ends_on_failure_settled, psbt_ends_on_failure. Qed.

Lemma Settled_psbtni (faas : Faas) : Settled env (psbtni faas).
Proof. intros w. eapply ends_on_failure_settled, psbtni_ends_on_failure. Qed.

Ltac quiet_prog :=
  unfold console_log;
  repeat first [ apply Quiet_forEach_print
               | apply Quiet_ret
               | quiet_call
               | apply Quiet_bind; [|intros ?] ].

(** One more call of [run] that may fail, and the rest after it. *)
Ltac settled_call :=
  apply Settled_bind_clean; [clean_call|settled_one_call|intros ?].

Lemma strict_equal_same (s : string) : strict_equal (Some s) s = true.
Proof. unfold strict_equal. by apply bool_decide_eq_true_2. Qed.

Lemma strict_equal_other (s s' : string) : s ≠ s' → strict_equal (Some s) s' = false.
Proof. intros Hne. unfold strict_equal. apply bool_decide_eq_false_2. congruence. Qed.

Lemma Settled_run (choice : option string) : Settled env (run choice).
Proof.
  unfold run. destruct (includes UserChoice.values choice) eqn:Hchoice; cbn [negb].
  2: { intros w. by apply settled_quiet. }
  unfold deepStrictEqual, console_log. do 13 settled_call.
  apply includes_values in Hchoice as [-> | [-> | ->]].
  - rewrite !strict_equal_other by done.
    apply Settled_bind_quiet; [apply Settled_ret|intros ?]. quiet_prog.
  - rewrite strict_equal_same, strict_equal_other by done.
    apply Settled_bind_quiet; [apply Settled_psbt|intros ?]. quiet_prog.
  - rewrite strict_equal_same, strict_equal_other by done.
    apply Settled_bind_clean; [apply Clean_ret|apply Settled_ret|intros ?].
    do 2 settled_call.
    apply Settled_bind_clean;
      [apply Clean_forEach_print
      |intros w; apply settled_quiet, Quiet_forEach_print
      |intros ?].
    apply Settled_bind_quiet; [apply Settled_psbtni|intros ?]. quiet_prog.
Qed.

Lemma Settled_main (argv : list string) : Settled env (main argv).
Proof.
  unfold main.
  apply Settled_try_catch; [|intros e; quiet_prog].
  apply Settled_bind_quiet; [apply Settled_run|intros ?; quiet_prog].
Qed.

Lemma psbt_reports_failure (w : W) (faas : Faas) :
  reports_failure (trace_of env (psbt faas) w) "PSBT failed:".
Proof.
  unfold reports_failure.
  run_flow; intros pre en post err Hcut Hen; cut_cases Hcut;
    try (by cbn in Hen); by injection Hen as <-.
Qed.

Lemma psbtni_reports_failure (w : W) (faas : Faas) :
  reports_failure (trace_of env (psbtni faas) w) "PSBTNI failed:".
Proof.
  unfold reports_failure.
  run_flow; intros pre en post err Hcut Hen; cut_cases Hcut;
    try (by cbn in Hen); by injection Hen as <-.
Qed.
End Claims.

(** ** The claims on the simulated collaborators *)

Import Simulation.

Lemma Exists_existsb (f : entry → bool) (t : trace) :
  Exists (λ e, f e = true) t → existsb f t = true.
Proof.
  induction 1 as [e t He|e t _ IH]; cbn [existsb]; [by rewrite He|].
  rewrite IH. by destruct (f e).
Qed.

Lemma commitment_verifier_witness :
  deepStrictEqual_result (JsRecord rewritten) (JsRecord offered) = Rejected AssertionError
  ∧ drop 10 (run_psbt [half_a_coin] RewritesOnRead) =
      [Entry (ConsoleError [JsString "PSBT failed:"; JsString (message AssertionError)])
             (Ok tt)]
  ∧ (∃ (before : trace) (answered : entry) (line : list JsValue)
       (expected : Exchange.t) (verdict : result unit) (rest : trace),
       take 7 (run_psbt [half_a_coin] RewritesOnRead) =
         before ++ [answered; Entry (ConsoleLog line) (Ok tt)]
       ∧ answered_record answered = Some expected
       ∧ drop 8 (run_psbt [half_a_coin] RewritesOnRead) =
           Entry (ConsoleLog [JsString "   "; JsString "Testing TX Equality"]) (Ok tt)
           :: Entry (DeepStrictEqual (JsRecord rewritten) (JsRecord expected)) verdict
           :: rest
       ∧ (rewritten = expected → verdict = Ok tt)
       ∧ (rewritten ≠ expected →
          verdict = Rejected AssertionError
          ∧ rest = [Entry (ConsoleError [JsString "PSBT failed:";
                                         JsString (message AssertionError)]) (Ok tt)]))
  ∧ (∃ (before : trace) (answered : entry) (line : list JsValue)
       (expected : Exchange.t) (verdict : result unit) (rest : trace),
       take 7 (run_psbtni [half_a_coin] Honest) =
         before ++ [answered; Entry (ConsoleLog line) (Ok tt)]
       ∧ answered_record answered = Some expected
       ∧ drop 8 (run_psbtni [half_a_coin] Honest) =
           Entry (ConsoleLog [JsString "   "; JsString "Testing TX Equality"]) (Ok tt)
           :: Entry (DeepStrictEqual (JsRecord ReplacedKey.sent_on) (JsRecord expected))
                    verdict
           :: rest
       ∧ (ReplacedKey.sent_on = expected → verdict = Ok tt)
       ∧ (ReplacedKey.sent_on ≠ expected →
          verdict = Rejected AssertionError
          ∧ rest = [Entry (ConsoleError [JsString "PSBTNI failed:";
                                         JsString (message AssertionError)]) (Ok tt)])).
Proof.
  destruct (@commitment_verifier constants World collaborators)
    as (_ & Hdiffer & Hpsbt & Hpsbtni).
  split; [|split; [|split]].
  - apply Hdiffer. right; right; right; left. vm_compute. discriminate.
  - apply (proj1 (proj2 (Hpsbt (start [half_a_coin] RewritesOnRead) client))
             (take 9 (run_psbt [half_a_coin] RewritesOnRead))
             (nth_entry 9 (run_psbt [half_a_coin] RewritesOnRead))).
    + vm_compute. reflexivity.
    + vm_compute. reflexivity.
  - apply (proj2 (proj2 (Hpsbt (start [half_a_coin] RewritesOnRead) client))
             (take 7 (run_psbt [half_a_coin] RewritesOnRead))
             (nth_entry 7 (run_psbt [half_a_coin] RewritesOnRead))).
    + vm_compute. reflexivity.
    + vm_compute. reflexivity.
  - apply (proj2 (proj2 (Hpsbtni (start [half_a_coin] Honest) client))
             (take 7 (run_psbtni [half_a_coin] Honest))
             (nth_entry 7 (run_psbtni [half_a_coin] Honest))).
    + vm_compute. reflexivity.
    + vm_compute. reflexivity.
Defined.

Lemma full_signing_only_after_check_witness :
  (∃ (before : trace) (candidate : string) (offer : PSBT) (answer : result Processed.t),
     take 11 (run_psbt [half_a_coin] Honest) = before ++
       [Entry (Sponsor (createPSBT client (@ASSET_BTC constants) candidate)) (Ok offer);
        Entry (ConsoleLog [JsString "   "; JsString "Retrieving Candidate TX"]) (Ok tt);
        Entry (Sponsor (readPSBT client (Exchange.asset offer) (Exchange.id offer)))
              (Ok offer);
        Entry (ConsoleLog [JsString "   "; JsString "Testing TX Equality"]) (Ok tt);
        Entry (DeepStrictEqual (JsRecord offer) (JsRecord offer)) (Ok tt);
        Entry (ConsoleLog [JsString "   "; JsString "Signing TX with Added Fees"]) (Ok tt)]
     ∧ Forall (λ e, is_signing e = false) before
     ∧ nth_entry 11 (run_psbt [half_a_coin] Honest) =
         Entry (Wallet (walletprocesspsbt (Exchange.psbt offer) true ALL true WALLET_LABEL))
               answer)
  ∧ Forall (λ e, is_signing e = false) (drop 10 (run_psbt [half_a_coin] RewritesOnRead)).
Proof.
  split.
  - apply (full_signing_only_after_check (H := constants) collaborators
             (start [half_a_coin] Honest) client
             (take 11 (run_psbt [half_a_coin] Honest))
             (nth_entry 11 (run_psbt [half_a_coin] Honest))
             (drop 12 (run_psbt [half_a_coin] Honest))).
    + vm_compute. reflexivity.
    + vm_compute. reflexivity.
  - apply (full_signing_only_after_check (H := constants) collaborators
             (start [half_a_coin] RewritesOnRead) client
             (take 9 (run_psbt [half_a_coin] RewritesOnRead))
             (nth_entry 9 (run_psbt [half_a_coin] RewritesOnRead))
             (drop 10 (run_psbt [half_a_coin] RewritesOnRead))).
    + vm_compute. reflexivity.
    + vm_compute. reflexivity.
Defined.

Lemma commitment_policy_per_step_witness :
  (ALL = ALL
   ∧ Exists (λ e, is_Some (created_offer e)) (take 11 (run_psbt [half_a_coin] Honest)))
  ∧ Exists (λ e, signing_policy e = Some ALL) (take 13 (run_psbt [half_a_coin] Honest))
  ∧ (ALL_ANYONECANPAY = ALL_ANYONECANPAY
     ∧ Forall (λ e, is_sponsor_call e = false) (take 3 (run_psbtni [half_a_coin] Honest)))
  ∧ Exists (λ e, signing_policy e = Some ALL_ANYONECANPAY)
           (take 5 (run_psbtni [half_a_coin] Honest)).
Proof.
  destruct (commitment_policy_per_step (H := constants) collaborators
              (start [half_a_coin] Honest) client) as [Hpsbt Hpsbtni].
  split; [|split; [|split]].
  - apply (proj1 (Hpsbt (take 11 (run_psbt [half_a_coin] Honest))
                        (nth_entry 11 (run_psbt [half_a_coin] Honest))
                        (drop 12 (run_psbt [half_a_coin] Honest)) eq_refl)).
    vm_compute. reflexivity.
  - apply (proj2 (Hpsbt (take 13 (run_psbt [half_a_coin] Honest))
                        (nth_entry 13 (run_psbt [half_a_coin] Honest))
                        (drop 14 (run_psbt [half_a_coin] Honest)) eq_refl)).
    vm_compute. eexists. reflexivity.
  - apply (proj1 (Hpsbtni (take 3 (run_psbtni [half_a_coin] Honest))
                          (nth_entry 3 (run_psbtni [half_a_coin] Honest))
                          (drop 4 (run_psbtni [half_a_coin] Honest)) eq_refl)).
    vm_compute. reflexivity.
  - apply (proj2 (Hpsbtni (take 5 (run_psbtni [half_a_coin] Honest))
                          (nth_entry 5 (run_psbtni [half_a_coin] Honest))
                          (drop 6 (run_psbtni [half_a_coin] Honest)) eq_refl)).
    vm_compute. reflexivity.
Defined.

Lemma candidate_construction_witness :
  interp collaborators (getPSBT false ALL) (start [half_a_coin] Honest) =
    ([Entry (Wallet (listunspent 0 [OUTPUT_ADDRESS] WALLET_LABEL)) (Ok [half_a_coin]);
      Entry (Wallet (createpsbt [TxIn.mk "9f2c4a" 1]
                                [{[OUTPUT_ADDRESS := Q2Qc (1 # 2)]}] 0 true))
            (Ok "cHNidP8BAFICAAAAAQ");
      Entry (Wallet (walletprocesspsbt "cHNidP8BAFICAAAAAQ" false ALL true WALLET_LABEL))
            (Ok (Processed.mk "cHNidP8BAFICAAAAAQ" false))],
     start [half_a_coin] Honest, Returned "cHNidP8BAFICAAAAAQ")
  ∧ allocated_fee [Q2Qc (1 # 2)] [{[OUTPUT_ADDRESS := Q2Qc (1 # 2)]}] = 0%Qc
  ∧ Forall (λ e, is_signing e = false)
           (trace_of collaborators (getPSBT false ALL) (start [half_a_coin] Honest)).
Proof.
  destruct (candidate_construction collaborators (start [half_a_coin] Honest) false ALL
              half_a_coin [] (start [half_a_coin] Honest) eq_refl)
    as (Hrun & Hfee & Hunsigned).
  split; [exact Hrun|]. split; [exact Hfee|]. apply Hunsigned. reflexivity.
Defined.

Lemma no_funds_available_witness :
  interp collaborators (getPSBT true ALL_ANYONECANPAY) (start [] Honest) =
    ([Entry (Wallet (listunspent 0 [OUTPUT_ADDRESS] WALLET_LABEL)) (Ok [])],
     start [] Honest, Thrown (TypeError "txid")).
Proof.
  apply (no_funds_available (H := constants) collaborators (start [] Honest)
           true ALL_ANYONECANPAY (start [] Honest) eq_refl).
Defined.

Lemma invalid_mode_witness :
  interp collaborators (@run constants (Some "none")) (start [half_a_coin] Honest) =
    ([], start [half_a_coin] Honest, Thrown (mkError "Error" "Invalid user choice."))
  ∧ interp collaborators (@main constants ["node"; "main.js"; "none"])
           (start [half_a_coin] Honest) =
      ([Entry (ConsoleLog [JsString "Invalid user choice."]) (Ok tt)],
       start [half_a_coin] Honest, Returned tt).
Proof.
  destruct (invalid_mode (H := constants) collaborators (start [half_a_coin] Honest)
              (Some "none")) as [Hrun Hmain]; [discriminate..|].
  split; [exact Hrun|]. apply Hmain. reflexivity.
Defined.

Lemma checks_compare_sponsor_answers_witness :
  ∃ (before : trace) (answered : entry) (line : list JsValue) (r refetched : PSBT),
    take 9 (run_psbt [half_a_coin] RedirectsFunds) = before ++
      [answered;
       Entry (ConsoleLog line) (Ok tt);
       Entry (Sponsor (readPSBT client (Exchange.asset r) (Exchange.id r))) (Ok refetched);
       Entry (ConsoleLog [JsString "   "; JsString "Testing TX Equality"]) (Ok tt)]
    ∧ (created_offer answered = Some r ∧ Forall (λ e, is_check e = false) before
       ∨ updated_record answered = Some r ∧ Exists (λ e, is_passed_check e = true) before)
    ∧ JsRecord redirected = JsRecord refetched
    ∧ JsRecord redirected = JsRecord r
    ∧ (is_failure (nth_entry 9 (run_psbt [half_a_coin] RedirectsFunds)) = false
       ↔ refetched = r).
Proof.
  apply (checks_compare_sponsor_answers (H := constants) collaborators
           (start [half_a_coin] RedirectsFunds) client
           (take 9 (run_psbt [half_a_coin] RedirectsFunds))
           (nth_entry 9 (run_psbt [half_a_coin] RedirectsFunds))
           (drop 10 (run_psbt [half_a_coin] RedirectsFunds))).
  - vm_compute. reflexivity.
  - vm_compute. reflexivity.
Defined.

Lemma exchange_calls_follow_answers_witness :
  after_submission (H := constants) client offered
    (take 9 (drop 6 (run_psbt [half_a_coin] RenumbersOnUpdate)))
    (nth_entry 15 (run_psbt [half_a_coin] RenumbersOnUpdate)).
Proof.
  apply (exchange_calls_follow_answers (H := constants) collaborators
           (start [half_a_coin] RenumbersOnUpdate) client
           (take 5 (run_psbt [half_a_coin] RenumbersOnUpdate))
           (nth_entry 5 (run_psbt [half_a_coin] RenumbersOnUpdate))
           (drop 6 (run_psbt [half_a_coin] RenumbersOnUpdate))
           offered)
    with (rest := drop 16 (run_psbt [half_a_coin] RenumbersOnUpdate)).
  - vm_compute. reflexivity.
  - vm_compute. reflexivity.
  - vm_compute. reflexivity.
Defined.

(** C10, as stated, fails when the sponsor files the resubmitted exchange
    under a new id: the last read then names the id ["2"] of the answer to
    the update, not the id ["1"] of the answer to the submission. *)
Lemma exchange_id_not_stable :
  ¬ exchange_id_stable (run_psbt [half_a_coin] RenumbersOnUpdate).
Proof.
  intros Hstable.
  specialize (Hstable (take 5 (run_psbt [half_a_coin] RenumbersOnUpdate))
                      (nth_entry 5 (run_psbt [half_a_coin] RenumbersOnUpdate))
                      (drop 6 (run_psbt [half_a_coin] RenumbersOnUpdate))
                      offered eq_refl eq_refl).
  apply (Forall_lookup_1 _ _ 9 (nth_entry 15 (run_psbt [half_a_coin] RenumbersOnUpdate)))
    in Hstable; [|reflexivity].
  specialize (Hstable "2" eq_refl). discriminate Hstable.
Qed.

Lemma flow_completes_after_second_check_witness :
  ∃ (before : trace) (answered : entry) (final : PSBT),
    trace_of collaborators (@psbt constants client) (start [half_a_coin] NeverBroadcasts) =
      before ++
      [answered;
       Entry (ConsoleLog [JsString "   "; JsString "Retrieving Final TX"]) (Ok tt);
       Entry (Sponsor (readPSBT client (Exchange.asset final) (Exchange.id final))) (Ok final);
       Entry (ConsoleLog [JsString "   "; JsString "Testing TX Equality"]) (Ok tt);
       Entry (DeepStrictEqual (JsRecord final) (JsRecord final)) (Ok tt)]
    ∧ updated_record answered = Some final
    ∧ Exists (λ e, is_passed_check e = true) before
    ∧ outcome_of collaborators (@psbt constants client) (start [half_a_coin] NeverBroadcasts)
      = Returned tt.
Proof.
  apply (flow_completes_after_second_check (H := constants) collaborators
           (start [half_a_coin] NeverBroadcasts) client).
  vm_compute. repeat constructor.
Defined.

(** C4, as stated, fails when the sponsor accepts the signed blob and never
    broadcasts: the process prints ["Done."], and no record was ever read
    back in [Broadcast] state. *)
Lemma completion_without_broadcast :
  ¬ completion_confirmed (run_main interactive [half_a_coin] NeverBroadcasts).
Proof.
  intros Hconfirmed.
  destruct (Hconfirmed (take 39 (run_main interactive [half_a_coin] NeverBroadcasts))
              (nth_entry 39 (run_main interactive [half_a_coin] NeverBroadcasts))
              (drop 40 (run_main interactive [half_a_coin] NeverBroadcasts))
              eq_refl eq_refl) as [Hread _].
  apply Exists_existsb in Hread. vm_compute in Hread. discriminate Hread.
Qed.

(** In that run nothing fails and no failure is reported. *)
Example nothing_reported_without_broadcast :
  Forall (λ e, is_console_error e = false ∧ is_failure e = false)
         (run_main interactive [half_a_coin] NeverBroadcasts).
Proof. vm_compute. repeat constructor. Qed.

(** The line ["Done."] is printed as well after the interactive flow has
    reported a failed check. *)
Example done_after_failed_check :
  Exists (λ e, is_failed_check e = true) (run_main interactive [half_a_coin] RewritesOnRead)
  ∧ last (run_main interactive [half_a_coin] RewritesOnRead) =
      Some (Entry (ConsoleLog [JsString "Done."]) (Ok tt)).
Proof.
  split; [|reflexivity].
  apply Exists_exists. exists (nth_entry 22 (run_main interactive [half_a_coin] RewritesOnRead)).
  split; [|reflexivity]. apply list_elem_of_lookup. by exists 22%nat.
Qed.

(** C3, as stated, fails when a read answers a rewritten blob: the check
    fails inside the interactive flow, which reports it and returns, and
    [run] goes on to call the sponsor for its two listings and returns. *)
Lemma failure_does_not_abort_run :
  ¬ failure_aborts_run collaborators (start [half_a_coin] RewritesOnRead)
      (@run constants (Some "psbt")).
Proof.
  intros Haborts.
  destruct (Haborts (take 22 (run_run (Some "psbt") [half_a_coin] RewritesOnRead))
              (nth_entry 22 (run_run (Some "psbt") [half_a_coin] RewritesOnRead))
              (drop 23 (run_run (Some "psbt") [half_a_coin] RewritesOnRead))
              eq_refl eq_refl) as [[e Hthrown] _].
  vm_compute in Hthrown. discriminate Hthrown.
Qed.

(** In that run the failed check is followed by the listing query. *)
Example sponsor_called_after_failed_check :
  is_failed_check (nth_entry 22 (run_run (Some "psbt") [half_a_coin] RewritesOnRead)) = true
  ∧ outcome_of collaborators (@run constants (Some "psbt")) (start [half_a_coin] RewritesOnRead)
    = Returned tt
  ∧ nth_entry 24 (run_run (Some "psbt") [half_a_coin] RewritesOnRead) =
      Entry (Sponsor (readPSBTs client)) (Ok [offered]).
Proof. by vm_compute. Qed.

(** * More of the script *)

(** ** The non-interactive flow, and what both flows submit *)

Lemma Exists_existsb_iff (f : entry → bool) (t : trace) :
  Exists (λ e, f e = true) t ↔ existsb f t = true.
Proof.
  induction t as [|e t IH]; cbn [existsb].
  - split; [by intros ?%Exists_nil|done].
  - rewrite Exists_cons, IH, orb_true_iff. done.
Qed.

Section MoreFlows.
Context `{FaasConstants} {W : Type} (env : Collaborators W).

(** X1: the one equality check of the non-interactive flow has, as its
    observed operand, the record re-fetched with the asset and id of the
    sponsor's answer to createPSBTNI and, as its expected operand, that
    answer; it passes exactly when the two are equal, and it is the last
    step of the flow: only the line reporting its failure may follow. *)
Theorem final_check_compares_sponsor_answers (w : W) (faas : Faas)
    (pre : trace) (en : entry) (post : trace) (actual expected : JsValue) :
  trace_of env (psbtni faas) w = pre ++ en :: post →
  check_operands en = Some (actual, expected) →
  ∃ (before : trace) (candidate : string) (r refetched : PSBTNI),
    pre = before ++
          [Entry (Sponsor (createPSBTNI faas ASSET_BTC candidate)) (Ok r);
           Entry (ConsoleLog [JsString "   "; JsString "Retrieving TX"]) (Ok tt);
           Entry (Sponsor (readPSBTNI faas (Exchange.asset r) (Exchange.id r)))
                 (Ok refetched);
           Entry (ConsoleLog [JsString "   "; JsString "Testing TX Equality"]) (Ok tt)]
    ∧ Forall (λ e, is_check e = false) before
    ∧ actual = JsRecord refetched
    ∧ expected = JsRecord r
    ∧ (is_failure en = false ↔ refetched = r)
    ∧ post = if is_failure en
             then [Entry (ConsoleError [JsString "PSBTNI failed:";
                                        JsString (message AssertionError)]) (Ok tt)]
             else [].
Proof.
  run_flow; intros Hcut Hen; cut_cases Hcut; try (by cbn in Hen).
  all: injection Hen as <- <-.
  all: refine (ex_intro _ [_; _; _; _; _] _); do 3 eexists.
  all: split; [reflexivity|]; split; [by repeat constructor|].
  all: split; [reflexivity|]; split; [reflexivity|]; split; [|reflexivity].
  all: cbn [is_failure]; split; [try done|]; try congruence.
  all: intros _; congruence.
Qed.

(** X2: the non-interactive flow is single shot: it never calls the
    interactive interface (so it never resubmits), it submits at most once
    and asks for at most one signature, and once it has called the sponsor
    it does not go back to the wallet. *)
Theorem noninteractive_is_single_shot (w : W) (faas : Faas) :
  Forall (λ e, is_interactive_call e = false) (trace_of env (psbtni faas) w)
  ∧ (count is_submission (trace_of env (psbtni faas) w) ≤ 1)%nat
  ∧ (count is_signing (trace_of env (psbtni faas) w) ≤ 1)%nat
  ∧ ∀ (pre : trace) (en : entry) (post : trace),
      trace_of env (psbtni faas) w = pre ++ en :: post →
      is_sponsor_call en = true →
      Forall (λ e, is_wallet_call e = false) post.
Proof.
  split; [|split; [|split]].
  - run_flow; by repeat constructor.
  - run_flow; cbn; lia.
  - run_flow; cbn; lia.
  - run_flow; intros pre en post Hcut Hen; cut_cases Hcut;
      try (by cbn in Hen); by repeat constructor.
Qed.

(** X3: what either flow submits to the sponsor, as [ASSET_BTC], is the
    blob the wallet answered when it processed the transaction it had just
    created from its first coin: processed without signing in the
    interactive flow, signed with ALL|ANYONECANPAY in the non-interactive
    one.  Nothing else precedes the submission. *)
Theorem submission_is_the_processed_candidate (w : W) (faas : Faas) :
  (∀ (pre : trace) (en : entry) (post : trace),
     trace_of env (psbt faas) w = pre ++ en :: post →
     is_submission en = true →
     ∃ (coin : Utxo.t) (others : list Utxo.t) (blob : string) (processed : Processed.t)
       (answer : result PSBT),
       pre = [Entry (ConsoleLog [JsString "Starting FaaS in Interactive Mode (PSBT)"]) (Ok tt);
              Entry (Wallet (listunspent 0 [OUTPUT_ADDRESS] WALLET_LABEL))
                    (Ok (coin :: others));
              Entry (Wallet (createpsbt [TxIn.mk (Utxo.txid coin) (Utxo.vout coin)]
                                        [{[OUTPUT_ADDRESS := Utxo.amount coin]}] 0 true))
                    (Ok blob);
              Entry (Wallet (walletprocesspsbt blob false ALL true WALLET_LABEL))
                    (Ok processed);
              Entry (ConsoleLog [JsString "   "; JsString "Submitting Candidate TX"]) (Ok tt)]
       ∧ en = Entry (Sponsor (createPSBT faas ASSET_BTC (Processed.psbt processed))) answer)
  ∧ (∀ (pre : trace) (en : entry) (post : trace),
       trace_of env (psbtni faas) w = pre ++ en :: post →
       is_submission en = true →
       ∃ (coin : Utxo.t) (others : list Utxo.t) (blob : string) (processed : Processed.t)
         (answer : result PSBTNI),
         pre = [Entry (ConsoleLog [JsString "Starting FaaS in Non-Interactive Mode (PSBTNI)"])
                      (Ok tt);
                Entry (Wallet (listunspent 0 [OUTPUT_ADDRESS] WALLET_LABEL))
                      (Ok (coin :: others));
                Entry (Wallet (createpsbt [TxIn.mk (Utxo.txid coin) (Utxo.vout coin)]
                                          [{[OUTPUT_ADDRESS := Utxo.amount coin]}] 0 true))
                      (Ok blob);
                Entry (Wallet (walletprocesspsbt blob true ALL_ANYONECANPAY true WALLET_LABEL))
                      (Ok processed);
                Entry (ConsoleLog [JsString "   ";
                                   JsString "Submitting Pre-Signed TX (ALL|ANYONECANPAY)"])
                      (Ok tt)]
         ∧ en = Entry (Sponsor (createPSBTNI faas ASSET_BTC (Processed.psbt processed)))
                      answer).
Proof.
  split; run_flow; intros pre en post Hcut Hen; cut_cases Hcut;
    try (by cbn in Hen); by do 5 eexists.
Qed.

(** X4: the non-interactive flow ends without a line that reports a failure
    only when it ends on a passed check of the re-fetched record against
    the sponsor's answer to the submission; it then returns. *)
Theorem final_flow_completes_after_check (w : W) (faas : Faas) :
  Forall (λ e, is_console_error e = false) (trace_of env (psbtni faas) w) →
  ∃ (before : trace) (answered : entry) (final : PSBTNI),
    trace_of env (psbtni faas) w =
      before ++
      [answered;
       Entry (ConsoleLog [JsString "   "; JsString "Retrieving TX"]) (Ok tt);
       Entry (Sponsor (readPSBTNI faas (Exchange.asset final) (Exchange.id final)))
             (Ok final);
       Entry (ConsoleLog [JsString "   "; JsString "Testing TX Equality"]) (Ok tt);
       Entry (DeepStrictEqual (JsRecord final) (JsRecord final)) (Ok tt)]
    ∧ created_final answered = Some final
    ∧ Exists (λ e, signing_policy e = Some ALL_ANYONECANPAY) before
    ∧ outcome_of env (psbtni faas) w = Returned tt.
Proof.
  run_flow; intros Hall; try (exfalso; no_console_error Hall; fail).
  same_records.
  refine (ex_intro _ [_; _; _; _; _] _).
  do 2 eexists. split; [reflexivity|]. split; [reflexivity|].
  split; [find_entry|reflexivity].
Qed.

(** X5: either flow prints its line of failure exactly when a call was
    rejected, a check failed, or the wallet listed no coin; it prints it at
    most once, and as the last thing it does. *)
Theorem flows_report_every_failure_once (w : W) (faas : Faas) (flow : prog unit) :
  flow = psbt faas ∨ flow = psbtni faas →
  (Exists (λ e, is_console_error e = true) (trace_of env flow w)
   ↔ Exists (λ e, is_failure e || lists_no_coin e = true) (trace_of env flow w))
  ∧ (count is_console_error (trace_of env flow w) ≤ 1)%nat
  ∧ ∀ (pre : trace) (en : entry) (post : trace),
      trace_of env flow w = pre ++ en :: post →
      is_console_error en = true → post = [].
Proof.
  intros [-> | ->]; (split; [|split]).
  1, 4: rewrite !Exists_existsb_iff; run_flow; by cbn.
  1, 3: run_flow; cbn; lia.
  all: run_flow; intros pre en post Hcut Hen; cut_cases Hcut; by cbn in Hen.
Qed.
End MoreFlows.

(** ** The entry point *)

Ltac same_strings :=
  repeat match goal with
         | Heq : JsString _ = JsString _ |- _ => injection Heq as ->
         end.

(** Every way of cutting a trace at one of the entries it lists first; what
    is left is the cut beyond them. *)
Ltac cut_head H :=
  let n := fresh "n" in let Hn := fresh "Hn" in
  apply elem_split in H as (n & Hn & -> & ->);
  repeat (destruct n as [|n];
          [cbn [lookup list_lookup] in Hn; injection Hn as <-; cbn [take drop] |]);
  cbn [lookup list_lookup take drop] in *.

Section EntryPoint.
Context `{FaasConstants} {W : Type} (env : Collaborators W).

(** *** Rules for what every entry of a program is *)

Lemma Always_ret (P : entry → Prop) {A : Type} (a : A) : Always env P (mret a).
Proof. intros w. constructor. Qed.

Lemma Always_throw (P : entry → Prop) {A : Type} (e : JsError) :
  Always env P (Throw e : prog A).
Proof. intros w. constructor. Qed.

Lemma Always_call (P : entry → Prop) (a : action) :
  (∀ r, P (Entry a r)) → Always env P (call a).
Proof.
  intros Ha w. unfold trace_of, call. cbn [interp].
  destruct (respond env a w) as [[x|e] w1]; cbn [interp fst];
    (constructor; [apply Ha|constructor]).
Qed.

Lemma Always_bind (P : entry → Prop) {A B : Type} (p : prog A) (f : A → prog B) :
  Always env P p → (∀ a, Always env P (f a)) → Always env P (p ≫= f).
Proof.
  intros Hp Hf w. unfold trace_of. rewrite interp_bind.
  specialize (Hp w). unfold trace_of in Hp.
  destruct (interp env p w) as [[t w1] [a|e]]; [|done].
  specialize (Hf a w1). unfold trace_of in Hf.
  destruct (interp env (f a) w1) as [[t2 w2] o]. cbn [fst] in *.
  by apply Forall_app.
Qed.

Lemma Always_try_catch (P : entry → Prop) {A : Type} (p : prog A) (h : JsError → prog A) :
  Always env P p → (∀ e, Always env P (h e)) → Always env P (try_catch p h).
Proof.
  intros Hp Hh w. unfold trace_of. rewrite interp_try_catch.
  specialize (Hp w). unfold trace_of in Hp.
  destruct (interp env p w) as [[t w1] [a|e]]; [done|].
  specialize (Hh e w1). unfold trace_of in Hh.
  destruct (interp env (h e) w1) as [[t2 w2] o]. cbn [fst] in *.
  by apply Forall_app.
Qed.

Ltac always_call :=
  match goal with
  | |- Always _ ?P (call ?a) => apply (Always_call P a); intros ?
  end.

Ltac always_step :=
  first [ apply Always_ret
        | always_call
        | apply Always_bind; [|intros ?] ].

Lemma Always_forEach_print (P : entry → Prop) (i : nat) (records : list Exchange.t) :
  (∀ args r, P (Entry (ConsoleLog args) r)) →
  Always env P (forEach_print i records).
Proof.
  intros HP. revert i.
  induction records as [|r records IH]; intros i; cbn [forEach_print].
  - apply Always_ret.
  - unfold console_log. repeat always_step; try apply IH; by apply HP.
Qed.

Lemma Always_run_rest (P : entry → Prop) (choice : option string) (faas : Faas) :
  (∀ en, is_listing_or_line en = true → on_client faas en → P en) →
  (choice = Some "psbt" → Always env P (psbt faas)) →
  (choice = Some "psbtni" → Always env P (psbtni faas)) →
  Always env P (run_rest choice faas).
Proof.
  intros HP Hpsbt Hpsbtni.
  assert (∀ args r, P (Entry (ConsoleLog args) r)) as Hline.
  { intros args r. by apply HP. }
  assert (∀ en, is_listing_or_line en = true → called_on en = Some faas → P en) as Hlist.
  { intros en Hen Hon. apply HP; [done|]. intros f. rewrite Hon. congruence. }
  unfold run_rest, console_log.
  apply Always_bind; [|intros ?].
  { unfold strict_equal. case_bool_decide; [by apply Hpsbt|apply Always_ret]. }
  apply Always_bind; [always_call; by apply Hlist|intros ?].
  apply Always_bind; [always_call; by apply Hline|intros ?].
  apply Always_bind; [by apply Always_forEach_print|intros ?].
  apply Always_bind; [|intros ?].
  { unfold strict_equal. case_bool_decide; [by apply Hpsbtni|apply Always_ret]. }
  apply Always_bind; [always_call; by apply Hlist|intros ?].
  apply Always_bind; [always_call; by apply Hline|intros ?].
  by apply Always_forEach_print.
Qed.

Lemma listing_or_line_is_query_or_line (en : entry) :
  is_listing_or_line en = true → is_query_or_line en = true.
Proof. by destruct en as [[c|c| | |] r]; [|destruct c|..]. Qed.

Lemma Always_run (P : entry → Prop) (choice : option string) :
  (∀ en, is_query_or_line en = true → P en) →
  (∀ faas, choice = Some "psbt" → Always env P (psbt faas)) →
  (∀ faas, choice = Some "psbtni" → Always env P (psbtni faas)) →
  Always env P (run choice).
Proof.
  intros HP Hpsbt Hpsbtni. unfold run.
  destruct (includes UserChoice.values choice); cbn [negb]; [|apply Always_throw].
  unfold deepStrictEqual, console_log.
  do 13 (apply Always_bind; [always_call; by apply HP|intros ?]).
  match goal with
  | faas : Faas |- _ => change (Always env P (run_rest choice faas))
  end.
  apply Always_run_rest; auto using listing_or_line_is_query_or_line.
Qed.

Lemma Always_main (P : entry → Prop) (argv : list string) :
  (∀ en, is_query_or_line en = true → P en) →
  (∀ faas, Always env P (psbt faas)) →
  (∀ faas, Always env P (psbtni faas)) →
  Always env P (main argv).
Proof.
  intros HP Hpsbt Hpsbtni. unfold main, console_log.
  apply Always_try_catch; [|intros e; always_call; by apply HP].
  apply Always_bind; [by apply Always_run; auto|intros ?].
  always_call. by apply HP.
Qed.

(** X6: the process never ends on an error of its own: after [run] it
    prints exactly one more line, ["Done."] when [run] returned and the
    message of the error when [run] threw, and that is all it adds. *)
Theorem main_ends_on_one_line (w : W) (argv : list string) :
  interp env (main argv) w =
    let '(t, w1, o) := interp env (run (argv !! 2%nat)) w in
    (t ++ [final_line o], w1, Returned tt).
Proof.
  unfold main. rewrite interp_try_catch, interp_bind.
  by destruct (interp env (run (argv !! 2%nat)) w) as [[t w1] [[]|e]].
Qed.


(** The run of [run] for a recognized choice, step by step up to the line
    of the rate; what is left in the goal is the run of [run_rest]. *)
Ltac run_basics choice :=
  unfold trace_of, outcome_of, run;
  destruct (includes UserChoice.values choice); cbn [negb];
  run_cbn; repeat run_step; cbn [fst snd];
  try match goal with
      | faas : faas_reply (new_Faas _ _) |- context [interp env ?p ?w0] =>
          change p with (run_rest choice faas)
      end.

(** X8: [run] calls the wallet, or the sponsor on an exchange, only after
    it has constructed its client with the configured url and key, the
    client has answered with that url and that key, and the account has
    answered with that key. *)
Theorem client_verified_before_any_flow (w : W) (choice : option string)
    (pre : trace) (en : entry) (post : trace) :
  trace_of env (run choice) w = pre ++ en :: post →
  is_wallet_call en || is_interactive_call en || is_noninteractive_call en = true →
  ∃ (faas : Faas) (since : trace), pre = client_verified faas ++ since.
Proof.
  run_basics choice;
    try (destruct (interp env _ _) as [[t w'] o]; cbn [fst]);
    intros Hcut Hen; cut_head Hcut; try (by cbn in Hen); try done.
  same_strings. by eexists _, _.
Qed.

(** X9: when the client answers with another url or key than the
    configured one, or the account with another key, [run] throws the
    assertion error at once: nothing follows the failed check, and nothing
    was asked of the wallet or about an exchange before it. *)
Theorem failed_client_check_aborts_run (w : W) (choice : option string)
    (pre : trace) (en : entry) (post : trace) :
  trace_of env (run choice) w = pre ++ en :: post →
  is_failed_check en = true →
  is_string_check en = true →
  post = []
  ∧ outcome_of env (run choice) w = Thrown AssertionError
  ∧ Forall (λ e, is_query_or_line e = true) pre.
Proof.
  run_basics choice;
    try match goal with
        | |- context [interp env (run_rest choice ?faas) ?w0] =>
            let Hrest := fresh "Hrest" in
            assert (Always env (λ e, is_failed_check e && is_string_check e = false)
                           (run_rest choice faas)) as Hrest;
            [apply Always_run_rest;
             [by intros [[c|c| | |] ans]; [|destruct c|..]
             |intros _ ?; run_flow; by repeat constructor
             |intros _ ?; run_flow; by repeat constructor]
            |specialize (Hrest w0); unfold trace_of in Hrest;
             destruct (interp env (run_rest choice faas) w0) as [[t w'] o]; cbn [fst snd] in *]
        end;
    intros Hcut Hen Hstring; cut_head Hcut;
    try (by cbn in Hen); try (by cbn in Hstring); try done;
    try (by repeat constructor).
  eapply Forall_lookup_1 in Hrest; [|done]. cbn beta in Hrest.
  by rewrite Hen, Hstring in Hrest.
Qed.


(** X11: for each of the three recognized choices [run] constructs exactly
    one client, first of all and with the configured url and key, and every
    method it or a flow calls afterwards is called on that client; when the
    construction fails nothing else is done.  For any other choice it
    constructs none. *)
Theorem one_client (w : W) (choice : option string) :
  (choice = Some "basic" ∨ choice = Some "psbt" ∨ choice = Some "psbtni" →
   ∃ (answer : result Faas) (rest : trace),
     trace_of env (run choice) w = Entry (Sponsor (new_Faas FAAS_URL FAAS_KEY)) answer :: rest
     ∧ Forall (λ e, is_construction e = false) rest
     ∧ match answer with
       | Ok faas => Forall (on_client faas) rest
       | Rejected _ => rest = []
       end)
  ∧ (¬ (choice = Some "basic" ∨ choice = Some "psbt" ∨ choice = Some "psbtni") →
     trace_of env (run choice) w = []).
Proof.
  rewrite <- includes_values. unfold trace_of, run.
  destruct (includes UserChoice.values choice); cbn [negb];
    (split; [intros Hchoice; try done|intros Hchoice; try done]).
  rewrite interp_bind.
  match goal with
  | |- context [@interp _ _ ?A (call ?a) w] =>
      destruct (@interp _ env A (call a) w) as [[t1 w0] o1] eqn:Hcall
  end.
  unfold call in Hcall. cbn [interp respond] in Hcall.
  destruct (sponsor env (new_Faas FAAS_URL FAAS_KEY) w) as [[faas|e] w1];
    cbn [interp] in Hcall; injection Hcall as <- <- <-;
    [|by exists (Rejected e), []].
  match goal with
  | |- context [interp env ?p w1] =>
      assert (Always env (λ e, is_construction e = false ∧ on_client faas e) p) as Hrest
  end.
  { unfold deepStrictEqual, console_log.
    do 12 (apply Always_bind;
           [always_call; split; [done|by intros f [= <-]] |intros ?]).
    change (Always env (λ e, is_construction e = false ∧ on_client faas e)
                   (run_rest choice faas)).
    apply Always_run_rest.
    - by intros [[c|c| | |] ans]; [|destruct c|..].
    - intros _ ?; run_flow; repeat constructor; by intros f [= <-].
    - intros _ ?; run_flow; repeat constructor; by intros f [= <-]. }
  specialize (Hrest w1). unfold trace_of in Hrest.
  destruct (interp env _ w1) as [[t w'] o]. cbn [fst app] in *.
  eexists _, _. split; [reflexivity|].
  split; eapply Forall_impl; try exact Hrest; by intros e [? ?].
Qed.

(** X12: whatever the choice and whatever the collaborators answer, every
    call the process makes to the wallet is as configured: coins are listed
    for [OUTPUT_ADDRESS] only, a transaction asked for has one input and a
    single output that pays [OUTPUT_ADDRESS], no lock time and the
    replaceable flag, and every processing is asked of [WALLET_LABEL] with
    the derivation paths. *)
Theorem wallet_calls_are_as_configured (w : W) (argv : list string) :
  Forall wallet_call_as_configured (trace_of env (main argv) w).
Proof.
  revert w. apply Always_main.
  - by intros [[c|c| | |] ans].
  - intros faas w; run_flow; repeat constructor; by eexists.
  - intros faas w; run_flow; repeat constructor; by eexists.
Qed.

(** *** Rules for how often a program makes an entry of a kind *)

Lemma count_app (kind : entry → bool) (t1 t2 : trace) :
  count kind (t1 ++ t2) = (count kind t1 + count kind t2)%nat.
Proof. induction t1 as [|e t1 IH]; cbn [count app]; lia. Qed.

Lemma count_none (kind : entry → bool) (t : trace) :
  Forall (λ e, kind e = false) t → count kind t = 0%nat.
Proof. induction 1 as [|e t He _ IH]; cbn [count]; [done|]. by rewrite He, IH. Qed.

Lemma AtMost_none (kind : entry → bool) (n : nat) {A : Type} (p : prog A) :
  Always env (λ e, kind e = false) p → AtMost env kind n p.
Proof. intros Hp w. rewrite count_none by apply Hp. lia. Qed.

Lemma AtMost_bind_l (kind : entry → bool) (n : nat) {A B : Type}
    (p : prog A) (f : A → prog B) :
  AtMost env kind n p → (∀ a, Always env (λ e, kind e = false) (f a)) →
  AtMost env kind n (p ≫= f).
Proof.
  intros Hp Hf w. unfold trace_of. rewrite interp_bind.
  specialize (Hp w). unfold trace_of in Hp.
  destruct (interp env p w) as [[t w1] [a|e]]; [|done].
  specialize (Hf a w1). unfold trace_of in Hf.
  destruct (interp env (f a) w1) as [[t2 w2] o]. cbn [fst] in *.
  rewrite count_app, (count_none kind t2) by done. lia.
Qed.

Lemma AtMost_bind_r (kind : entry → bool) (n : nat) {A B : Type}
    (p : prog A) (f : A → prog B) :
  Always env (λ e, kind e = false) p → (∀ a, AtMost env kind n (f a)) →
  AtMost env kind n (p ≫= f).
Proof.
  intros Hp Hf w. unfold trace_of. rewrite interp_bind.
  specialize (Hp w). unfold trace_of in Hp.
  destruct (interp env p w) as [[t w1] [a|e]].
  - specialize (Hf a w1). unfold trace_of in Hf.
    destruct (interp env (f a) w1) as [[t2 w2] o]. cbn [fst] in *.
    rewrite count_app, (count_none kind t) by done. lia.
  - cbn [fst] in *. rewrite count_none by done. lia.
Qed.

Lemma AtMost_try_catch (kind : entry → bool) (n : nat) {A : Type}
    (p : prog A) (h : JsError → prog A) :
  AtMost env kind n p → (∀ e, Always env (λ e, kind e = false) (h e)) →
  AtMost env kind n (try_catch p h).
Proof.
  intros Hp Hh w. unfold trace_of. rewrite interp_try_catch.
  specialize (Hp w). unfold trace_of in Hp.
  destruct (interp env p w) as [[t w1] [a|e]]; [done|].
  specialize (Hh e w1). unfold trace_of in Hh.
  destruct (interp env (h e) w1) as [[t2 w2] o]. cbn [fst] in *.
  rewrite count_app, (count_none kind t2) by done. lia.
Qed.

(** The process makes at most as many entries of a kind as a flow does,
    when [run] makes none of that kind outside the flows: it runs at most
    one of the two. *)
Lemma AtMost_main (kind : entry → bool) (n : nat) (argv : list string) :
  (∀ en, is_query_or_line en = true → kind en = false) →
  (∀ faas, AtMost env kind n (psbt faas)) →
  (∀ faas, AtMost env kind n (psbtni faas)) →
  AtMost env kind n (main argv).
Proof.
  intros Hkind Hpsbt Hpsbtni.
  assert (∀ en, is_listing_or_line en = true → kind en = false) as Hkind'.
  { auto using listing_or_line_is_query_or_line. }
  unfold main, console_log.
  apply AtMost_try_catch; [|intros e; always_call; by apply Hkind].
  apply AtMost_bind_l; [|intros ?; always_call; by apply Hkind].
  generalize (argv !! 2%nat). intros choice.
  unfold run. destruct (includes UserChoice.values choice); cbn [negb];
    [|apply AtMost_none, Always_throw].
  unfold deepStrictEqual, console_log.
  do 13 (apply AtMost_bind_r; [always_call; by apply Hkind|intros ?]).
  destruct (decide (choice = Some "psbt")) as [->|Hchoice].
  - rewrite strict_equal_same, strict_equal_other by done.
    apply AtMost_bind_l; [apply Hpsbt|intros ?].
    do 2 (apply Always_bind; [always_call; by apply Hkind|intros ?]).
    apply Always_bind; [by apply Always_forEach_print; intros; apply Hkind|intros ?].
    apply Always_bind; [apply Always_ret|intros ?].
    do 2 (apply Always_bind; [always_call; by apply Hkind|intros ?]).
    by apply Always_forEach_print; intros; apply Hkind.
  - replace (strict_equal choice "psbt") with false
      by (symmetry; by apply bool_decide_eq_false_2).
    apply AtMost_bind_r; [apply Always_ret|intros ?].
    do 2 (apply AtMost_bind_r; [always_call; by apply Hkind|intros ?]).
    apply AtMost_bind_r; [by apply Always_forEach_print; intros; apply Hkind|intros ?].
    apply AtMost_bind_l.
    + destruct (strict_equal choice "psbtni"); [apply Hpsbtni|apply AtMost_none, Always_ret].
    + intros ?.
      do 2 (apply Always_bind; [always_call; by apply Hkind|intros ?]).
      by apply Always_forEach_print; intros; apply Hkind.
Qed.

(** X13: whatever the choice and whatever the collaborators answer, the
    process submits a candidate at most once, resubmits at most once, asks
    the wallet for at most one signature, and reports at most one failure
    of a flow. *)
Theorem at_most_one_submission (w : W) (argv : list string) :
  (count is_submission (trace_of env (main argv) w) ≤ 1)%nat
  ∧ (count is_resubmission (trace_of env (main argv) w) ≤ 1)%nat
  ∧ (count is_signing (trace_of env (main argv) w) ≤ 1)%nat
  ∧ (count is_console_error (trace_of env (main argv) w) ≤ 1)%nat.
Proof.
  repeat split; revert w; apply AtMost_main;
    first [ by intros [[c|c| | |] ans]; [|destruct c|..]
          | intros faas w; run_flow; cbn; lia ].
Qed.


Lemma AtMost_call (kind : entry → bool) (a : action) : AtMost env kind 1 (call a).
Proof.
  intros w. unfold trace_of, call. cbn [interp].
  destruct (respond env a w) as [[x|e] w1]; cbn [interp fst count];
    destruct (kind _); cbn; lia.
Qed.

Ltac at_most_one_call :=
  match goal with
  | |- AtMost _ ?kind _ (call ?a) => apply (AtMost_call kind a)
  end.

Ltac none_of_kind :=
  unfold console_log, deepStrictEqual;
  repeat first [ apply Always_ret
               | by apply Always_forEach_print
               | always_call; done
               | apply Always_bind; [|intros ?]
               | match goal with
                 | |- Always _ _ (if ?b then _ else _) => destruct b
                 end
               | intros ?; run_flow; by repeat constructor ].

(** Each of the two listing queries is made at most once in a run of the
    process. *)
Lemma listings_at_most_once (argv : list string) :
  AtMost env is_readPSBTs 1 (main argv) ∧ AtMost env is_readPSBTNIs 1 (main argv).
Proof.
  split.
  - unfold main, console_log.
    apply AtMost_try_catch; [|intros e; always_call; done].
    apply AtMost_bind_l; [|intros ?; always_call; done].
    unfold run. destruct (includes UserChoice.values (argv !! 2%nat)); cbn [negb];
      [|apply AtMost_none, Always_throw].
    unfold deepStrictEqual, console_log.
    do 13 (apply AtMost_bind_r; [always_call; done|intros ?]).
    apply AtMost_bind_r; [none_of_kind|intros ?].
    apply AtMost_bind_l; [at_most_one_call|intros ?]. none_of_kind.
  - unfold main, console_log.
    apply AtMost_try_catch; [|intros e; always_call; done].
    apply AtMost_bind_l; [|intros ?; always_call; done].
    unfold run. destruct (includes UserChoice.values (argv !! 2%nat)); cbn [negb];
      [|apply AtMost_none, Always_throw].
    unfold deepStrictEqual, console_log.
    do 13 (apply AtMost_bind_r; [always_call; done|intros ?]).
    apply AtMost_bind_r; [none_of_kind|intros ?].
    do 2 (apply AtMost_bind_r; [always_call; done|intros ?]).
    apply AtMost_bind_r; [by apply Always_forEach_print|intros ?].
    apply AtMost_bind_r; [none_of_kind|intros ?].
    apply AtMost_bind_l; [at_most_one_call|intros ?]. none_of_kind.
Qed.

(** C3, as the code has it: a failure inside either flow ends that flow,
    which reports the message of the error on one line and returns: the
    failed step is not made again and no other step of the flow is made.
    For the whole process, whatever failed and wherever, nothing follows a
    failure but console lines and the two listing queries, and each of
    these two is made at most once in a run, so that no call is made
    again. *)
Theorem failure_ends_flow (w : W) (faas : Faas) (argv : list string) :
  (reports_failure (trace_of env (psbt faas) w) "PSBT failed:"
   ∧ outcome_of env (psbt faas) w = Returned tt)
  ∧ (reports_failure (trace_of env (psbtni faas) w) "PSBTNI failed:"
     ∧ outcome_of env (psbtni faas) w = Returned tt)
  ∧ settled (trace_of env (main argv) w)
  ∧ (count is_readPSBTs (trace_of env (main argv) w) ≤ 1)%nat
  ∧ (count is_readPSBTNIs (trace_of env (main argv) w) ≤ 1)%nat.
Proof.
  split; [|split; [|split; [|split]]].
  - split; [apply psbt_reports_failure|apply flows_return].
  - split; [apply psbtni_reports_failure|apply flows_return].
  - apply Settled_main.
  - apply listings_at_most_once.
  - apply listings_at_most_once.
Qed.
End EntryPoint.

(** ** More of the script on the simulated collaborators *)

Import Simulation.

Lemma final_check_compares_sponsor_answers_witness :
  ∃ (before : trace) (candidate : string) (r refetched : PSBTNI),
    take 9 (run_psbtni [half_a_coin] RewritesOnRead) = before ++
      [Entry (Sponsor (createPSBTNI client (@ASSET_BTC constants) candidate)) (Ok r);
       Entry (ConsoleLog [JsString "   "; JsString "Retrieving TX"]) (Ok tt);
       Entry (Sponsor (readPSBTNI client (Exchange.asset r) (Exchange.id r)))
             (Ok refetched);
       Entry (ConsoleLog [JsString "   "; JsString "Testing TX Equality"]) (Ok tt)]
    ∧ Forall (λ e, is_check e = false) before
    ∧ JsRecord ReplacedKey.sent_on_rewritten = JsRecord refetched
    ∧ JsRecord ReplacedKey.sent_on = JsRecord r
    ∧ (is_failure (nth_entry 9 (run_psbtni [half_a_coin] RewritesOnRead)) = false
       ↔ refetched = r)
    ∧ drop 10 (run_psbtni [half_a_coin] RewritesOnRead) =
        if is_failure (nth_entry 9 (run_psbtni [half_a_coin] RewritesOnRead))
        then [Entry (ConsoleError [JsString "PSBTNI failed:";
                                   JsString (message AssertionError)]) (Ok tt)]
        else [].
Proof.
  apply (final_check_compares_sponsor_answers (H := constants) collaborators
           (start [half_a_coin] RewritesOnRead) client
           (take 9 (run_psbtni [half_a_coin] RewritesOnRead))
           (nth_entry 9 (run_psbtni [half_a_coin] RewritesOnRead))
           (drop 10 (run_psbtni [half_a_coin] RewritesOnRead))).
  - vm_compute. reflexivity.
  - vm_compute. reflexivity.
Defined.

Lemma submission_is_the_processed_candidate_witness :
  (∃ (coin : Utxo.t) (others : list Utxo.t) (blob : string) (processed : Processed.t)
     (answer : result PSBT),
     take 5 (run_psbt [half_a_coin] Honest) =
       [Entry (ConsoleLog [JsString "Starting FaaS in Interactive Mode (PSBT)"]) (Ok tt);
        Entry (Wallet (listunspent 0 [OUTPUT_ADDRESS] WALLET_LABEL)) (Ok (coin :: others));
        Entry (Wallet (createpsbt [TxIn.mk (Utxo.txid coin) (Utxo.vout coin)]
                                  [{[OUTPUT_ADDRESS := Utxo.amount coin]}] 0 true))
              (Ok blob);
        Entry (Wallet (walletprocesspsbt blob false ALL true WALLET_LABEL)) (Ok processed);
        Entry (ConsoleLog [JsString "   "; JsString "Submitting Candidate TX"]) (Ok tt)]
     ∧ nth_entry 5 (run_psbt [half_a_coin] Honest) =
         Entry (Sponsor (createPSBT client (@ASSET_BTC constants) (Processed.psbt processed)))
               answer)
  ∧ (∃ (coin : Utxo.t) (others : list Utxo.t) (blob : string) (processed : Processed.t)
       (answer : result PSBTNI),
       take 5 (run_psbtni [half_a_coin] Honest) =
         [Entry (ConsoleLog [JsString "Starting FaaS in Non-Interactive Mode (PSBTNI)"])
                (Ok tt);
          Entry (Wallet (listunspent 0 [OUTPUT_ADDRESS] WALLET_LABEL)) (Ok (coin :: others));
          Entry (Wallet (createpsbt [TxIn.mk (Utxo.txid coin) (Utxo.vout coin)]
                                    [{[OUTPUT_ADDRESS := Utxo.amount coin]}] 0 true))
                (Ok blob);
          Entry (Wallet (walletprocesspsbt blob true ALL_ANYONECANPAY true WALLET_LABEL))
                (Ok processed);
          Entry (ConsoleLog [JsString "   ";
                             JsString "Submitting Pre-Signed TX (ALL|ANYONECANPAY)"])
                (Ok tt)]
       ∧ nth_entry 5 (run_psbtni [half_a_coin] Honest) =
           Entry (Sponsor (createPSBTNI client (@ASSET_BTC constants)
                                        (Processed.psbt processed)))
                 answer).
Proof.
  destruct (submission_is_the_processed_candidate (H := constants) collaborators
              (start [half_a_coin] Honest) client) as [Hpsbt Hpsbtni].
  split.
  - apply (Hpsbt (take 5 (run_psbt [half_a_coin] Honest))
                 (nth_entry 5 (run_psbt [half_a_coin] Honest))
                 (drop 6 (run_psbt [half_a_coin] Honest))).
    + vm_compute. reflexivity.
    + vm_compute. reflexivity.
  - apply (Hpsbtni (take 5 (run_psbtni [half_a_coin] Honest))
                   (nth_entry 5 (run_psbtni [half_a_coin] Honest))
                   (drop 6 (run_psbtni [half_a_coin] Honest))).
    + vm_compute. reflexivity.
    + vm_compute. reflexivity.
Defined.

Lemma final_flow_completes_after_check_witness :
  ∃ (before : trace) (answered : entry) (final : PSBTNI),
    trace_of collaborators (@psbtni constants client) (start [half_a_coin] Honest) =
      before ++
      [answered;
       Entry (ConsoleLog [JsString "   "; JsString "Retrieving TX"]) (Ok tt);
       Entry (Sponsor (readPSBTNI client (Exchange.asset final) (Exchange.id final)))
             (Ok final);
       Entry (ConsoleLog [JsString "   "; JsString "Testing TX Equality"]) (Ok tt);
       Entry (DeepStrictEqual (JsRecord final) (JsRecord final)) (Ok tt)]
    ∧ created_final answered = Some final
    ∧ Exists (λ e, signing_policy e = Some ALL_ANYONECANPAY) before
    ∧ outcome_of collaborators (@psbtni constants client) (start [half_a_coin] Honest)
      = Returned tt.
Proof.
  apply (final_flow_completes_after_check (H := constants) collaborators
           (start [half_a_coin] Honest) client).
  vm_compute. repeat constructor.
Defined.

Lemma flows_report_every_failure_once_witness :
  (Exists (λ e, is_console_error e = true) (run_psbt [] Honest)
   ↔ Exists (λ e, is_failure e || lists_no_coin e = true) (run_psbt [] Honest))
  ∧ (count is_console_error (run_psbt [] Honest) ≤ 1)%nat
  ∧ ∀ (pre : trace) (en : entry) (post : trace),
      run_psbt [] Honest = pre ++ en :: post →
      is_console_error en = true → post = [].
Proof.
  apply (flows_report_every_failure_once (H := constants) collaborators
           (start [] Honest) client (@psbt constants client)).
  left. reflexivity.
Defined.

Lemma client_verified_before_any_flow_witness :
  ∃ (faas : Faas) (since : trace),
    take 14 (run_run (Some "psbt") [half_a_coin] Honest) =
      client_verified faas ++ since.
Proof.
  apply (client_verified_before_any_flow (H := constants) collaborators
           (start [half_a_coin] Honest) (Some "psbt")
           (take 14 (run_run (Some "psbt") [half_a_coin] Honest))
           (nth_entry 14 (run_run (Some "psbt") [half_a_coin] Honest))
           (drop 15 (run_run (Some "psbt") [half_a_coin] Honest))).
  - vm_compute. reflexivity.
  - vm_compute. reflexivity.
Defined.

Lemma failed_client_check_aborts_run_witness :
  drop 7 (ReplacedKey.run_run (Some "psbt")) = []
  ∧ outcome_of ReplacedKey.collaborators (@run constants (Some "psbt"))
               (start [half_a_coin] Honest) = Thrown AssertionError
  ∧ Forall (λ e, is_query_or_line e = true) (take 6 (ReplacedKey.run_run (Some "psbt"))).
Proof.
  apply (failed_client_check_aborts_run (H := constants) ReplacedKey.collaborators
           (start [half_a_coin] Honest) (Some "psbt")
           (take 6 (ReplacedKey.run_run (Some "psbt")))
           (nth_entry 6 (ReplacedKey.run_run (Some "psbt")))
           (drop 7 (ReplacedKey.run_run (Some "psbt")))).
  - vm_compute. reflexivity.
  - vm_compute. reflexivity.
  - vm_compute. reflexivity.
Defined.


Lemma one_client_witness :
  ∃ (answer : result Faas) (rest : trace),
    run_run (Some "psbt") [half_a_coin] Honest =
      Entry (Sponsor (new_Faas FAAS_URL FAAS_KEY)) answer :: rest
    ∧ Forall (λ e, is_construction e = false) rest
    ∧ match answer with
      | Ok faas => Forall (on_client faas) rest
      | Rejected _ => rest = []
      end.
Proof.
  apply (proj1 (one_client (H := constants) collaborators
                  (start [half_a_coin] Honest) (Some "psbt"))).
  right. left. reflexivity.
Defined.

Lemma failure_ends_flow_witness :
  drop 10 (run_psbt [half_a_coin] RewritesOnRead) =
    [Entry (ConsoleError [JsString "PSBT failed:"; JsString (message AssertionError)])
           (Ok tt)]
  ∧ outcome_of collaborators (@psbt constants client) (start [half_a_coin] RewritesOnRead)
    = Returned tt
  ∧ Forall quiet (drop 23 (run_main interactive [half_a_coin] RewritesOnRead))
  ∧ (count is_readPSBTs (run_main interactive [half_a_coin] RewritesOnRead) ≤ 1)%nat
  ∧ (count is_readPSBTNIs (run_main interactive [half_a_coin] RewritesOnRead) ≤ 1)%nat.
Proof.
  destruct (failure_ends_flow (H := constants) collaborators
              (start [half_a_coin] RewritesOnRead) client interactive)
    as ((Hflow & Hreturns) & _ & Hmain & Hlisting & Hlisting').
  split; [|split; [exact Hreturns|split; [|split; [exact Hlisting|exact Hlisting']]]].
  - apply (Hflow (take 9 (run_psbt [half_a_coin] RewritesOnRead))
                 (nth_entry 9 (run_psbt [half_a_coin] RewritesOnRead))).
    + vm_compute. reflexivity.
    + vm_compute. reflexivity.
  - apply (Hmain (take 22 (run_main interactive [half_a_coin] RewritesOnRead))
                 (nth_entry 22 (run_main interactive [half_a_coin] RewritesOnRead))).
    + vm_compute. reflexivity.
    + vm_compute. reflexivity.
Defined.

(** C8, as stated, fails on a wallet without coins: the error [getPSBT]
    throws is the type error of reading the first coin, and no error of it
    is named NoFundsAvailable. *)
Lemma no_funds_error_is_a_type_error :
  ¬ fails_with_NoFundsAvailable collaborators (start [] Honest) false ALL.
Proof.
  intros Hclaim. destruct (Hclaim (start [] Honest) eq_refl) as [message Hthrown].
  vm_compute in Hthrown. discriminate Hthrown.
Qed.
